(** * grpc-proxy: the proxy handler and its metadata propagation

    A shallow embedding of [proxy/handler.go]: the stream handler that
    asks the Director where to route a call, builds the outgoing
    context, opens the backend stream and relays, together with
    [CopyMetadata] and [RemoteIp].

    Go values are modelled as follows.
    - A Go [string] is a byte sequence: Rocq's [string].
    - [metadata.MD] is [map[string][]string], a reference type: a
      reference into a heap of [gmap string (list string)].
    - A [context.Context] is the record of the values the handler reads
      from it: incoming metadata, outgoing metadata, peer, and the
      cancellation scopes it lives under.
    - Calls into collaborators (opening the client stream, the relay,
      the Director's callbacks) are recorded in an event trace.

    The packages the handler calls ([strings], [net], [metadata],
    [context], [peer]) are modelled as they were when the handler was
    written (Go 1.10, grpc-go 1.11): [metadata.FromIncomingContext]
    returns the stored map itself and [MD.Copy] is [Join].

    Go panics are not modelled.  The handler is taken to run under a gRPC
    server, so the transport stream is in the context, the Director
    returns a Routing Decision whenever it returns no error, and a peer,
    when present, has an address. *)

From Stdlib Require Import ZArith NArith Ascii String List Bool Lia DecimalString.
From stdpp Require Import gmap strings list fin_maps.

Local Open Scope string_scope.
Local Open Scope Z_scope.

(** ** Go's [strings] package, on byte strings *)

Module strings.

(** [len(s)] *)
Definition len (s : string) : Z := Z.of_nat (String.length s).

(** [strings.HasPrefix(s, prefix)] *)
Fixpoint HasPrefix (s pre : string) {struct pre} : bool :=
  match pre, s with
  | EmptyString, _ => true
  | String a pre', String b s' => if Ascii.eqb a b then HasPrefix s' pre' else false
  | String _ _, EmptyString => false
  end.

(** The scan behind [strings.LastIndex]: [s] is the part of the string
    that starts at byte index [i]; the answer is the greatest index at
    which [substr] occurs, or [-1]. *)
Fixpoint LastIndex_from (i : Z) (s substr : string) : Z :=
  match s with
  | EmptyString => if HasPrefix s substr then i else -1
  | String _ s' =>
      let r := LastIndex_from (i + 1) s' substr in
      if 0 <=? r then r
      else if HasPrefix s substr then i else -1
  end.

(** [strings.LastIndex(s, substr)] *)
Definition LastIndex (s substr : string) : Z := LastIndex_from 0 s substr.

(** [s[:i]] for [0 <= i <= len(s)] *)
Definition slice_to (s : string) (i : Z) : string :=
  String.substring 0 (Z.to_nat i) s.

(** [strings.IndexByte(s, c) >= 0]: the byte [c] occurs in [s]. *)
Fixpoint occurs (c : ascii) (s : string) : bool :=
  match s with
  | EmptyString => false
  | String b s' => Ascii.eqb c b || occurs c s'
  end.

(** [strings.ToLower] on ASCII letters.  The handler only ever lowers
    the constant key [XForwardedFor], which is ASCII. *)
Definition lower_byte (c : ascii) : ascii :=
  let n := N_of_ascii c in
  if ((65 <=? n) && (n <=? 90))%N then ascii_of_N (n + 32) else c.

Fixpoint ToLower (s : string) : string :=
  match s with
  | EmptyString => EmptyString
  | String c s' => String (lower_byte c) (ToLower s')
  end.

End strings.

(** ** Go's [net] package: addresses and the text form of an IP *)

Module net.

(** [net.IP] is a byte slice. *)
Definition IP := list Byte.byte.

Definition IPv4len : Z := 4.
Definition IPv6len : Z := 16.

(** [p[i]] as an unsigned number (0 out of range; the callers below stay
    in range). *)
Definition at_ (p : IP) (i : Z) : N :=
  match nth_error p (Z.to_nat i) with
  | Some b => Byte.to_N b
  | None => 0%N
  end.

Definition iplen (p : IP) : Z := Z.of_nat (List.length p).

Definition isZeros (p : IP) : bool := forallb (fun b => (Byte.to_N b =? 0)%N) p.

(** [ip.To4()]; [nil] is the empty slice. *)
Definition To4 (ip : IP) : IP :=
  if iplen ip =? IPv4len then ip
  else if (iplen ip =? IPv6len) && isZeros (firstn 10 ip)
          && (at_ ip 10 =? 255)%N && (at_ ip 11 =? 255)%N
       then firstn 4 (skipn 12 ip)
       else [].

(** [uitoa]: decimal text of an unsigned number. *)
Definition uitoa (n : N) : string := NilEmpty.string_of_uint (N.to_uint n).

Definition hexDigit (n : N) : ascii :=
  match String.get (N.to_nat n) "0123456789abcdef" with
  | Some c => c
  | None => "0"%char
  end.

(** [hexString]: two hex digits per byte. *)
Fixpoint hexString (p : IP) : string :=
  match p with
  | [] => EmptyString
  | b :: p' =>
      String (hexDigit (N.shiftr (Byte.to_N b) 4))
        (String (hexDigit (N.land (Byte.to_N b) 15)) (hexString p'))
  end.

(** [appendHex]: hex text of a 32-bit number without leading zeros. *)
Definition appendHex (i : N) : string :=
  if (i =? 0)%N then "0"
  else
    fold_right
      (fun j acc =>
         let v := N.shiftr i (j * 4) in
         if (0 <? v)%N then String (hexDigit (N.land v 15)) acc else acc)
      EmptyString [7; 6; 5; 4; 3; 2; 1; 0]%N.

(** The inner loop of the zero-run search:
    [for j < IPv6len && p[j] == 0 && p[j+1] == 0 { j += 2 }]. *)
Fixpoint zeroRun (fuel : nat) (p : IP) (j : Z) : Z :=
  match fuel with
  | O => j
  | S fuel' =>
      if (j <? IPv6len) && (at_ p j =? 0)%N && (at_ p (j + 1) =? 0)%N
      then zeroRun fuel' p (j + 2)
      else j
  end.

(** The outer loop: the longest run of zero groups, as byte offsets
    [(e0, e1)], [(-1, -1)] when there is none. *)
Fixpoint longestZeroRun (fuel : nat) (p : IP) (i e0 e1 : Z) : Z * Z :=
  match fuel with
  | O => (e0, e1)
  | S fuel' =>
      if i <? IPv6len then
        let j := zeroRun 8 p i in
        if (i <? j) && (e1 - e0 <? j - i)
        then longestZeroRun fuel' p (j + 2) i j
        else longestZeroRun fuel' p (i + 2) e0 e1
      else (e0, e1)
  end.

Definition group (p : IP) (i : Z) : N :=
  N.lor (N.shiftl (at_ p i) 8) (at_ p (i + 1)).

(** The printing loop, with [::] in place of the run [e0..e1]. *)
Fixpoint printGroups (fuel : nat) (p : IP) (i e0 e1 : Z) : string :=
  match fuel with
  | O => EmptyString
  | S fuel' =>
      if i <? IPv6len then
        if i =? e0 then
          "::" ++
          (if IPv6len <=? e1 then EmptyString
           else appendHex (group p e1) ++ printGroups fuel' p (e1 + 2) e0 e1)
        else
          (if 0 <? i then ":" else "") ++
          appendHex (group p i) ++ printGroups fuel' p (i + 2) e0 e1
      else EmptyString
  end.

(** [ip.String()] *)
Definition IP_String (ip : IP) : string :=
  if iplen ip =? 0 then "<nil>"
  else
    let p4 := To4 ip in
    if iplen p4 =? IPv4len then
      uitoa (at_ p4 0) ++ "." ++ uitoa (at_ p4 1) ++ "." ++
      uitoa (at_ p4 2) ++ "." ++ uitoa (at_ p4 3)
    else if negb (iplen ip =? IPv6len) then "?" ++ hexString ip
    else
      let '(e0, e1) := longestZeroRun 8 ip 0 (-1) (-1) in
      let '(e0, e1) := if e1 - e0 <=? 2 then (-1, -1) else (e0, e1) in
      printGroups 8 ip 0 e0 e1.

(** [net.TCPAddr] *)
Record TCPAddr := { IP_ : IP; Port : Z; Zone : string }.

(** A [net.Addr] is an interface value; the handler distinguishes
    [*net.TCPAddr] from every other implementation, of which it only
    calls [String()]. *)
Inductive Addr :=
| TCP (a : TCPAddr)
| Other (network : string) (text : string).

(** [net.JoinHostPort(host, port)]: brackets around a host that
    contains a colon. *)
Definition JoinHostPort (host port : string) : string :=
  if strings.occurs ":" host then "[" ++ host ++ "]:" ++ port
  else host ++ ":" ++ port.

(** [itoa]: decimal text of a signed number. *)
Definition itoa (val : Z) : string :=
  if val <? 0 then "-" ++ uitoa (Z.to_N (- val)) else uitoa (Z.to_N val).

(** [ipEmptyString]: like [ip.String()], but empty for an empty IP. *)
Definition ipEmptyString (ip : IP) : string :=
  if iplen ip =? 0 then "" else IP_String ip.

(** [addr.String()].  For a TCP address it is the host, with the zone
    after a percent sign when there is one, joined to the port. *)
Definition Addr_String (a : Addr) : string :=
  match a with
  | TCP t =>
      let ip := ipEmptyString (IP_ t) in
      if negb (strings.len (Zone t) =? 0)
      then JoinHostPort (ip ++ "%" ++ Zone t) (itoa (Port t))
      else JoinHostPort ip (itoa (Port t))
  | Other _ text => text
  end.

End net.

(** ** Errors *)

(** A Go [error] value; the [nil] error is [None] of [option error].
    [io.EOF] is one fixed value, compared with [==]. *)
Inductive error :=
| io_EOF
| StatusError (code : N) (msg : string)
| OtherError (msg : string).

#[global] Instance error_eq_dec : EqDecision error.
Proof. solve_decision. Defined.

(** ** Metadata, peers and contexts *)

(** The value of a [metadata.MD]: [map[string][]string]. *)
Abbreviation MDmap := (gmap string (list string)).

(** A [metadata.MD] held by the program: a reference to a map. *)
Definition MD := nat.

(** The maps allocated so far. *)
Abbreviation Heap := (gmap nat (gmap string (list string))).

(** Reading through a reference; a nil map reads as the empty map. *)
Definition deref (h : Heap) (md : MD) : MDmap := default ∅ (h !! md).

(** [metadata.rawMD]: what [NewOutgoingContext] and
    [AppendToOutgoingContext] store under the outgoing key. *)
Record rawMD := { raw_md : MD; raw_added : list (list string) }.

(** A cancellation function is a closure: the one the Director returned,
    or the one [context.WithCancel] made for a new scope. *)
Inductive CancelFunc :=
| SuppliedCancel (id : nat)
| DerivedCancel (scope : nat).

#[global] Instance CancelFunc_eq_dec : EqDecision CancelFunc.
Proof. solve_decision. Defined.

(** A [context.Context], as far as the handler can observe it. *)
Record Context := {
  ctx_incoming : option MD;       (* value under [mdIncomingKey] *)
  ctx_outgoing : option rawMD;    (* value under [mdOutgoingKey] *)
  ctx_peer : option net.Addr;     (* [peer.Peer.Addr] under [peerKey] *)
  ctx_scopes : list nat           (* [WithCancel] scopes it is derived under *)
}.

Module peer.
(** [peer.FromContext(ctx)], reduced to the peer's [Addr]. *)
Definition FromContext (ctx : Context) : option net.Addr := ctx_peer ctx.
End peer.

(** *** Program state and the effect monad *)

(** Opaque handles of the RPC framework. *)
Definition ClientConn := nat.
Definition ClientStream := nat.

(** The Director's completion callback, a closure. *)
Definition DoneFunc := nat.

(** [grpc.ServerStream]: its context, and the method of the transport
    stream found in that context. *)
Record ServerStream := { ss_Context : Context; ss_Method : string }.

(** Calls that leave the handler. *)
Inductive Event :=
| EvNewClientStream (ctx : Context) (conn : ClientConn) (method : string)
| EvBiDirCopy (ss : ServerStream) (cs : ClientStream)
| EvDone (f : DoneFunc) (err : option error)
| EvCancel (c : CancelFunc).

Record State := {
  heap : Heap;          (* metadata maps *)
  nextScope : nat;      (* next fresh cancellation scope *)
  trace : list Event    (* calls made so far, oldest first *)
}.

Definition M (A : Type) : Type := State -> A * State.

Definition ret {A} (a : A) : M A := fun s => (a, s).

Definition bind {A B} (m : M A) (k : A -> M B) : M B :=
  fun s => let '(a, s') := m s in k a s'.

Notation "'let*' x ':=' m 'in' k" := (bind m (fun x => k))
  (at level 10, x name, m at level 100, k at level 200).
Notation "'let*' ' p ':=' m 'in' k" := (bind m (fun x => match x with p => k end))
  (at level 10, p pattern, m at level 100, k at level 200).
Notation "'exec' m 'in' k" := (bind m (fun _ => k))
  (at level 10, m at level 100, k at level 200).

Definition emit (e : Event) : M unit :=
  fun s => (tt, {| heap := heap s; nextScope := nextScope s; trace := (trace s ++ [e])%list |}).

(** [defer f()]: [f] runs when the body has returned. *)
Definition defer {A} (deferred : M unit) (body : M A) : M A :=
  let* r := body in exec deferred in ret r.

(** Allocate a new map. *)
Definition alloc (m : MDmap) : M MD :=
  fun s =>
    let r := fresh (dom (heap s)) in
    (r, {| heap := <[r := m]> (heap s); nextScope := nextScope s; trace := trace s |}).

(** Update the map behind a reference in place. *)
Definition update (md : MD) (f : MDmap -> MDmap) : M unit :=
  fun s =>
    (tt, {| heap := <[md := f (deref (heap s) md)]> (heap s);
            nextScope := nextScope s; trace := trace s |}).

Definition load (md : MD) : M MDmap := fun s => (deref (heap s) md, s).

Module metadata.

(** [md[k] = append(md[k], vals...)] on the value of a map. *)
Definition append_at (k : string) (vals : list string) (m : MDmap) : MDmap :=
  <[k := (default [] (m !! k) ++ vals)%list]> m.

(** [md.Copy()], which is [Join(md)]: a new map with, for every key,
    a new slice holding the same values. *)
Definition Copy (md : MD) : M MD :=
  let* m := load md in alloc m.

(** [md.Append(k, vals...)]: the key is lowered first. *)
Definition Append (md : MD) (k : string) (vals : list string) : M unit :=
  update md (append_at (strings.ToLower k) vals).

(** The loop of [metadata.Pairs]. *)
Fixpoint pairs_into (kv : list string) (m : MDmap) : MDmap :=
  match kv with
  | k :: v :: kv' => pairs_into kv' (append_at (strings.ToLower k) [v] m)
  | _ => m
  end.

(** [metadata.Pairs(kv...)], called with an even number of strings
    (Go panics on an odd number). *)
Definition Pairs (kv : list string) : M MD := alloc (pairs_into kv ∅).

(** [metadata.FromIncomingContext(ctx)]: [Some md] stands for [(md, true)]. *)
Definition FromIncomingContext (ctx : Context) : option MD := ctx_incoming ctx.

(** The [ok] result of [metadata.FromOutgoingContext(ctx)]; the handler
    discards the metadata it returns. *)
Definition FromOutgoingContext_ok (ctx : Context) : bool :=
  match ctx_outgoing ctx with Some _ => true | None => false end.

(** [metadata.NewOutgoingContext(ctx, md)] *)
Definition NewOutgoingContext (ctx : Context) (md : MD) : Context :=
  {| ctx_incoming := ctx_incoming ctx;
     ctx_outgoing := Some {| raw_md := md; raw_added := [] |};
     ctx_peer := ctx_peer ctx;
     ctx_scopes := ctx_scopes ctx |}.

End metadata.

Module context.

(** [context.WithCancel(parent)]: a child context in a new scope and
    the function that cancels that scope. *)
Definition WithCancel (parent : Context) : M (Context * CancelFunc) :=
  fun s =>
    let n := nextScope s in
    (({| ctx_incoming := ctx_incoming parent;
         ctx_outgoing := ctx_outgoing parent;
         ctx_peer := ctx_peer parent;
         ctx_scopes := n :: ctx_scopes parent |}, DerivedCancel n),
     {| heap := heap s; nextScope := S n; trace := trace s |}).

End context.

(** ** The proxy: [handler.go] *)

Definition XForwardedFor : string := "X-Forwarded-For".

Definition RemoteIp (ctx : Context) : string :=
  match peer.FromContext ctx with
  | None => ""
  | Some addr =>
      match addr with
      | net.TCP addr => net.IP_String (net.IP_ addr)
      | _ =>
          let s := net.Addr_String addr in
          let i := strings.LastIndex s ":" in
          if i <? 0 then s
          else strings.slice_to s i
      end
  end.

Definition CopyMetadata (ctx serverCtx : Context) : M Context :=
  let remoteIp := RemoteIp serverCtx in
  match metadata.FromIncomingContext serverCtx with
  | Some md =>
      let* md := metadata.Copy md in
      exec (if negb (strings.len remoteIp =? 0)
            then metadata.Append md XForwardedFor [remoteIp]
            else ret tt) in
      ret (metadata.NewOutgoingContext ctx md)
  | None =>
      if strings.len remoteIp =? 0 then ret ctx
      else
        let* md := metadata.Pairs [XForwardedFor; remoteIp] in
        ret (metadata.NewOutgoingContext ctx md)
  end.

(** Modelled from the spec: the declaration of the Routing Decision that
    a Director returns (its file is not among the sources).  The fields
    are the three that [handler] reads: the backend connection handle,
    the optional method-name override (empty when absent) and the
    optional completion callback ([nil] when absent). *)
Record Director := {
  BackendConn : ClientConn;
  Method : string;
  Done : option DoneFunc
}.

(** The four results of a Director call, as Go returns them. *)
Record Routing := {
  r_ctx : Context;
  r_cancel : option CancelFunc;
  r_dir : Director;
  r_err : option error
}.

(** [StreamDirector]: the routing policy, a function of the inbound
    context and the full method name. *)
Definition StreamDirector := Context -> string -> Routing.

Record handler_ := { director : StreamDirector }.

Section Handler.

(** [grpc.NewClientStream(ctx, clientStreamDescForProxying, conn, method)]:
    a stream, or the error that kept it from being opened. *)
Variable grpc_NewClientStream : Context -> ClientConn -> string -> ClientStream + error.

(** The relay between the two streams (its file is not among the
    sources); the handler only looks at the error it returns. *)
Variable biDirCopy : ServerStream -> ClientStream -> option error.

Definition NewClientStream (ctx : Context) (conn : ClientConn) (method : string)
  : M (ClientStream + error) :=
  exec emit (EvNewClientStream ctx conn method) in
  ret (grpc_NewClientStream ctx conn method).

Definition call_biDirCopy (ss : ServerStream) (cs : ClientStream) : M (option error) :=
  exec emit (EvBiDirCopy ss cs) in
  ret (biDirCopy ss cs).

(** Calling a function value of type [func(error)]. *)
Definition call_Done (f : DoneFunc) (err : option error) : M unit :=
  emit (EvDone f err).

(** Calling a [context.CancelFunc]. *)
Definition call_Cancel (c : CancelFunc) : M unit := emit (EvCancel c).

Definition handler (h : handler_) (serverStream : ServerStream) : M (option error) :=
  let serverCtx := ss_Context serverStream in
  let fullMethodName := ss_Method serverStream in
  let r := director h serverCtx fullMethodName in
  let clientCtx := r_ctx r in
  let dir := r_dir r in
  match r_err r with
  | Some err => ret (Some err)
  | None =>
      let* '(clientCtx, clientCancel) :=
        match r_cancel r with
        | None => context.WithCancel clientCtx
        | Some clientCancel => ret (clientCtx, clientCancel)
        end in
      defer (call_Cancel clientCancel)
        (let* clientCtx :=
           if negb (metadata.FromOutgoingContext_ok clientCtx)
           then CopyMetadata clientCtx serverCtx
           else ret clientCtx in
         let fullMethodName :=
           if negb (strings.len (Method dir) =? 0) then Method dir
           else fullMethodName in
         let* res := NewClientStream clientCtx (BackendConn dir) fullMethodName in
         match res with
         | inr err => ret (Some err)
         | inl clientStream =>
             let* err := call_biDirCopy serverStream clientStream in
             let err := if decide (err = Some io_EOF) then None else err in
             exec match Done dir with
                  | Some done => call_Done done err
                  | None => ret tt
                  end in
             ret err
         end)
  end.

End Handler.

(** ** Observing a run *)

(** The state [s] with the calls [evs] made after it. *)
Definition with_events (s : State) (evs : list Event) : State :=
  {| heap := heap s; nextScope := nextScope s; trace := (trace s ++ evs)%list |}.

(** The calls made between the states [s] and [s']. *)
Definition emitted (s s' : State) : list Event :=
  drop (List.length (trace s)) (trace s').

(** Projections of a list of calls. *)
Definition cancel_calls (evs : list Event) : list CancelFunc :=
  omap (fun e => match e with EvCancel c => Some c | _ => None end) evs.

Definition done_calls (evs : list Event) : list (DoneFunc * option error) :=
  omap (fun e => match e with EvDone f err => Some (f, err) | _ => None end) evs.

Definition stream_opens (evs : list Event) : list (Context * ClientConn * string) :=
  omap (fun e => match e with
                 | EvNewClientStream ctx conn m => Some (ctx, conn, m)
                 | _ => None
                 end) evs.

Definition relays (evs : list Event) : list (ServerStream * ClientStream) :=
  omap (fun e => match e with EvBiDirCopy ss cs => Some (ss, cs) | _ => None end) evs.

(** The error the handler reports for the error [err] of the relay. *)
Definition normalise (err : option error) : option error :=
  if decide (err = Some io_EOF) then None else err.

(** The call of the completion callback, when the Director gave one. *)
Definition done_events (dir : Director) (err : option error) : list Event :=
  match Done dir with
  | Some done => [EvDone done err]
  | None => []
  end.

(** ** Sample values *)

Module Sample.

Definition byte_of (n : N) : Byte.byte := default Byte.x00 (Byte.of_N n).

(** [203.0.113.5] and [2001:db8::1] *)
Definition ip4 : net.IP := map byte_of [203; 0; 113; 5]%N.
Definition ip6 : net.IP :=
  map byte_of [32; 1; 13; 184; 0; 0; 0; 0; 0; 0; 0; 0; 0; 0; 0; 1]%N.

Definition tcp4 : net.Addr := net.TCP {| net.IP_ := ip4; net.Port := 54321; net.Zone := "" |}.
Definition tcp6 : net.Addr := net.TCP {| net.IP_ := ip6; net.Port := 443; net.Zone := "eth0" |}.
Definition pipe : net.Addr := net.Other "pipe" "pipe".
Definition hostport : net.Addr := net.Other "tcp" "203.0.113.5:54321".

Definition background : Context :=
  {| ctx_incoming := None; ctx_outgoing := None; ctx_peer := None; ctx_scopes := [] |}.

(** An inbound context: metadata at reference [md], peer [addr]. *)
Definition inbound (md : option MD) (addr : option net.Addr) : Context :=
  {| ctx_incoming := md; ctx_outgoing := None; ctx_peer := addr; ctx_scopes := [] |}.

(** A state whose heap holds the one map [m], at reference 0. *)
Definition one_map (m : MDmap) : State :=
  {| heap := {[ 0%nat := m ]}; nextScope := 0; trace := [] |}.

Definition no_maps : State := {| heap := ∅; nextScope := 0; trace := [] |}.

End Sample.

(** ** Sample calls *)

Module Calls.

(** [codes.Unimplemented] and [codes.Unavailable] *)
Definition unimplemented : error := StatusError 12 "Unknown method".
Definition unavailable : error := StatusError 14 "connection refused".

(** A Director that shields internal services, and sends every other
    call to connection 1, with a completion callback, leaving method,
    cancellation and metadata to the handler. *)
Definition shielding : StreamDirector :=
  fun _ method =>
    if strings.HasPrefix method "/com.example.internal." then
      {| r_ctx := Sample.background; r_cancel := None;
         r_dir := {| BackendConn := 0%nat; Method := ""; Done := None |};
         r_err := Some unimplemented |}
    else
      {| r_ctx := Sample.background; r_cancel := None;
         r_dir := {| BackendConn := 1%nat; Method := ""; Done := Some 7%nat |};
         r_err := None |}.

(** A Director that decides everything itself: its own outgoing
    metadata (the map at reference 0), its own cancellation function,
    another method name, and no completion callback. *)
Definition own_metadata : Context :=
  metadata.NewOutgoingContext Sample.background 0%nat.

Definition overriding : StreamDirector :=
  fun _ _ =>
    {| r_ctx := own_metadata; r_cancel := Some (SuppliedCancel 3);
       r_dir := {| BackendConn := 2%nat; Method := "/backend.Service/Ping"; Done := None |};
       r_err := None |}.

(** Inbound calls from [203.0.113.5:54321] with metadata at reference 0. *)
Definition ping : ServerStream :=
  {| ss_Context := Sample.inbound (Some 0%nat) (Some Sample.tcp4);
     ss_Method := "/pkg.Service/Ping" |}.

Definition internal : ServerStream :=
  {| ss_Context := Sample.inbound (Some 0%nat) (Some Sample.tcp4);
     ss_Method := "/com.example.internal.Admin/Reset" |}.

Definition start : State := Sample.one_map {[ "k" := ["v"] ]}.

(** The backend: it accepts or refuses the stream. *)
Definition accept : Context -> ClientConn -> string -> ClientStream + error :=
  fun _ _ _ => inl 5%nat.
Definition refuse : Context -> ClientConn -> string -> ClientStream + error :=
  fun _ _ _ => inr unavailable.

(** The relay: how it ends. *)
Definition relay_eof : ServerStream -> ClientStream -> option error :=
  fun _ _ => Some io_EOF.
Definition relay_nil : ServerStream -> ClientStream -> option error :=
  fun _ _ => None.
Definition relay_status : ServerStream -> ClientStream -> option error :=
  fun _ _ => Some (StatusError 14 "backend unavailable").

(** The context the handler builds for [ping] under [shielding]. *)
Definition ping_outgoing : Context :=
  {| ctx_incoming := None;
     ctx_outgoing := Some {| raw_md := 1%nat; raw_added := [] |};
     ctx_peer := None;
     ctx_scopes := [0%nat] |}.

End Calls.

(** ** Registration: [RegisterService] and [TransparentHandler] *)

Module grpc.

(** [grpc.StreamHandler], [func(srv interface{}, stream ServerStream) error];
    the handler of this package does not look at [srv]. *)
Definition StreamHandler := ServerStream -> M (option error).

(** [grpc.StreamDesc] *)
Record StreamDesc := {
  StreamName : string;
  Handler : StreamHandler;
  ServerStreams : bool;
  ClientStreams : bool
}.

(** [grpc.ServiceDesc]: [Methods] are the unary methods, by name.  The
    fields [HandlerType] (here always the empty interface) and
    [Metadata] (never set) are left out. *)
Record ServiceDesc := {
  ServiceName : string;
  Methods : list string;
  Streams : list StreamDesc
}.

(** A [grpc.Server], as the registrations it was given, oldest first:
    the description and the implementation value. *)
Definition Server := list (ServiceDesc * handler_).

(** [server.RegisterService(sd, ss)] *)
Definition Server_RegisterService (server : Server) (sd : ServiceDesc) (ss : handler_)
  : Server := (server ++ [(sd, ss)])%list.

End grpc.

Section Registration.

Variable grpc_NewClientStream : Context -> ClientConn -> string -> ClientStream + error.
Variable biDirCopy : ServerStream -> ClientStream -> option error.

Definition RegisterService (server : grpc.Server) (director : StreamDirector)
    (serviceName : string) (methodNames : list string) : grpc.Server :=
  let streamer := {| director := director |} in
  let fakeDesc :=
    {| grpc.ServiceName := serviceName; grpc.Methods := []; grpc.Streams := [] |} in
  let fakeDesc :=
    fold_left
      (fun fakeDesc m =>
         let streamDesc :=
           {| grpc.StreamName := m;
              grpc.Handler := handler grpc_NewClientStream biDirCopy streamer;
              grpc.ServerStreams := true;
              grpc.ClientStreams := true |} in
         {| grpc.ServiceName := grpc.ServiceName fakeDesc;
            grpc.Methods := grpc.Methods fakeDesc;
            grpc.Streams := (grpc.Streams fakeDesc ++ [streamDesc])%list |})
      methodNames fakeDesc in
  grpc.Server_RegisterService server fakeDesc streamer.

Definition TransparentHandler (director : StreamDirector) : grpc.StreamHandler :=
  let streamer := {| director := director |} in
  handler grpc_NewClientStream biDirCopy streamer.

End Registration.

(** ** The example Director: [examples_test.go] *)

Module proxy_test.

(** What a Go function call comes to: it returns, or it panics. *)
Inductive Outcome (A : Type) :=
| Returns (a : A)
| Panics.
Arguments Returns {A} a.
Arguments Panics {A}.

(** The four results of [ClientConn]; [None] is [nil]. *)
Record Results := {
  res_ctx : option Context;
  res_cancel : option CancelFunc;
  res_conn : option nat;
  res_err : option error
}.

(** [grpc.Errorf(codes.Unimplemented, "Unknown method")] *)
Definition unknown_method : error := StatusError 12 "Unknown method".

(** [context.Background()] *)
Definition Background : Context :=
  {| ctx_incoming := None; ctx_outgoing := None; ctx_peer := None; ctx_scopes := [] |}.

(** [val, exists := md[":authority"]; exists && val[0] == host]:
    [None] when [val[0]] is out of range. *)
Definition authority_is (m : MDmap) (host : string) : option bool :=
  match m !! ":authority" with
  | Some val =>
      match val with
      | v0 :: _ => Some (String.eqb v0 host)
      | [] => None
      end
  | None => Some false
  end.

Section Dial.

(** [grpc.DialContext(ctx, addr, grpc.WithCodec(proxy.Codec()))]: the
    connection and the error. *)
Variable grpc_DialContext : Context -> string -> option nat * option error.

(** [ClientConn], run on the heap [h]: the dial calls it made, and how
    it ended. *)
Definition ClientConn (h : Heap) (ctx : Context) (method : string)
  : list (Context * string) * Outcome Results :=
  let reject :=
    Returns {| res_ctx := None; res_cancel := None; res_conn := None;
               res_err := Some unknown_method |} in
  if strings.HasPrefix method "/com.example.internal." then ([], reject)
  else
    let addr : option string :=
      match metadata.FromIncomingContext ctx with
      | Some md =>
          let md := deref h md in
          match authority_is md "staging.api.example.com" with
          | None => None
          | Some true => Some "api-service.staging.svc.local"
          | Some false =>
              match authority_is md "api.example.com" with
              | None => None
              | Some true => Some "api-service.prod.svc.local"
              | Some false => Some ""
              end
          end
      | None => Some ""
      end in
    match addr with
    | None => ([], Panics)
    | Some addr =>
        if strings.len addr =? 0 then ([], reject)
        else
          let '(conn, err) := grpc_DialContext ctx addr in
          ([(ctx, addr)],
           Returns {| res_ctx := Some Background; res_cancel := None;
                      res_conn := conn; res_err := err |})
    end.

End Dial.

End proxy_test.

(** The pieces of a routed run that come before the stream is opened:
    the scope of the call, then the outgoing metadata. *)
Definition call_scope (r : Routing) : M (Context * CancelFunc) :=
  match r_cancel r with
  | None => context.WithCancel (r_ctx r)
  | Some clientCancel => ret (r_ctx r, clientCancel)
  end.

Definition call_context (r : Routing) (serverCtx : Context) : M (Context * CancelFunc) :=
  let* '(clientCtx, clientCancel) := call_scope r in
  let* clientCtx :=
    if negb (metadata.FromOutgoingContext_ok clientCtx)
    then CopyMetadata clientCtx serverCtx
    else ret clientCtx in
  ret (clientCtx, clientCancel).

(** The methods [ExampleRegisterService] registers, a state whose one
    map names a host under [:authority], and a dial that succeeds. *)
Module Registered.

Definition methods : list string := ["PingEmpty"; "Ping"; "PingError"; "PingList"].

Definition with_authority (host : string) : State :=
  Sample.one_map {[ ":authority" := [host] ]}.

Definition dial_ok : Context -> string -> option nat * option error :=
  fun _ _ => (Some 9%nat, None).

End Registered.

(** * Properties *)

(** ** Byte strings *)

Lemma len_zero_iff (s : string) : (strings.len s =? 0) = true <-> s = "".
Proof.
  unfold strings.len. destruct s; simpl; split; intros H; try done.
Qed.

Lemma len_nonzero_iff (s : string) : (strings.len s =? 0) = false <-> s <> "".
Proof.
  rewrite <- not_true_iff_false, len_zero_iff. tauto.
Qed.

Lemma LastIndex_from_absent (s : string) : forall i,
  strings.occurs ":" s = false -> strings.LastIndex_from i s ":" = -1.
Proof.
  induction s as [|b s IH]; intros i Hs; simpl in *.
  - reflexivity.
  - apply orb_false_iff in Hs as [Hb Hs].
    rewrite (IH _ Hs). simpl. unfold Ascii.eqb in Hb |- *.
    destruct b as [[] [] [] [] [] [] [] []]; simpl in *; congruence.
Qed.

Lemma append_nil_l (s : string) : "" ++ s = s.
Proof. reflexivity. Qed.

Lemma append_cons_l (c : ascii) (a b : string) : String c a ++ b = String c (a ++ b).
Proof. reflexivity. Qed.

Lemma LastIndex_from_last (host port : string) : forall i,
  0 <= i -> strings.occurs ":" port = false ->
  strings.LastIndex_from i (host ++ ":" ++ port) ":" = i + strings.len host.
Proof.
  induction host as [|b host IH]; intros i Hi Hp.
  - rewrite append_nil_l, append_cons_l, append_nil_l.
    cbn [strings.LastIndex_from].
    rewrite (LastIndex_from_absent _ _ Hp). simpl. unfold strings.len. simpl. lia.
  - rewrite append_cons_l. cbn [strings.LastIndex_from].
    rewrite (IH (i + 1)) by (lia || done).
    assert ((0 <=? i + 1 + strings.len host) = true) as ->
      by (apply Z.leb_le; unfold strings.len; lia).
    unfold strings.len. simpl String.length. lia.
Qed.

Lemma slice_to_prefix (a b : string) :
  strings.slice_to (a ++ b) (strings.len a) = a.
Proof.
  unfold strings.slice_to, strings.len. rewrite Nat2Z.id.
  induction a as [|c a IH].
  - rewrite append_nil_l. destruct b; reflexivity.
  - rewrite append_cons_l. simpl. f_equal. exact IH.
Qed.

(** ** [RemoteIp] *)

Lemma RemoteIp_no_peer (ctx : Context) :
  peer.FromContext ctx = None -> RemoteIp ctx = "".
Proof. unfold RemoteIp. intros ->. reflexivity. Qed.

Lemma RemoteIp_tcp (ctx : Context) (a : net.TCPAddr) :
  peer.FromContext ctx = Some (net.TCP a) -> RemoteIp ctx = net.IP_String (net.IP_ a).
Proof. unfold RemoteIp. intros ->. reflexivity. Qed.

Lemma RemoteIp_host_port (ctx : Context) (network host port : string) :
  peer.FromContext ctx = Some (net.Other network (host ++ ":" ++ port)) ->
  strings.occurs ":" port = false ->
  RemoteIp ctx = host.
Proof.
  unfold RemoteIp. intros -> Hp. cbn [net.Addr_String].
  unfold strings.LastIndex. rewrite LastIndex_from_last by (lia || done).
  assert ((0 + strings.len host <? 0) = false) as ->
    by (apply Z.ltb_ge; unfold strings.len; lia).
  apply slice_to_prefix.
Qed.

Lemma RemoteIp_no_port (ctx : Context) (network text : string) :
  peer.FromContext ctx = Some (net.Other network text) ->
  strings.occurs ":" text = false ->
  RemoteIp ctx = text.
Proof.
  unfold RemoteIp. intros -> Hp. cbn [net.Addr_String].
  unfold strings.LastIndex. rewrite LastIndex_from_absent by done. reflexivity.
Qed.

(** ** States, traces and the heap *)

Lemma with_events_nil (s : State) : with_events s [] = s.
Proof. destruct s; unfold with_events; simpl. by rewrite app_nil_r. Qed.

Lemma with_events_app (s : State) (a b : list Event) :
  with_events (with_events s a) b = with_events s (a ++ b)%list.
Proof. unfold with_events; simpl. by rewrite app_assoc. Qed.

Lemma emit_with_events (e : Event) (s : State) : emit e s = (tt, with_events s [e]).
Proof. reflexivity. Qed.

Lemma emitted_with_events (s s1 : State) (evs : list Event) :
  trace s1 = trace s -> emitted s (with_events s1 evs) = evs.
Proof.
  intros H. unfold emitted, with_events; simpl. rewrite H.
  by rewrite drop_app_length.
Qed.

Lemma emitted_same (s s1 : State) : trace s1 = trace s -> emitted s s1 = [].
Proof.
  intros H. rewrite <- (with_events_nil s1). by apply emitted_with_events.
Qed.

Lemma last_trace_with_events (s : State) (evs : list Event) (e : Event) :
  last (trace (with_events s (evs ++ [e]))) = Some e.
Proof. unfold with_events; simpl. rewrite app_assoc. apply last_snoc. Qed.

Lemma fresh_unused (h : Heap) : h !! fresh (dom h) = None.
Proof. apply not_elem_of_dom, is_fresh. Qed.

Lemma fresh_other (h : Heap) (r : nat) (m : MDmap) :
  h !! r = Some m -> fresh (dom h) <> r.
Proof. intros H E. rewrite <- E, fresh_unused in H. discriminate. Qed.

(** ** [CopyMetadata], as one step on the heap *)

(** With incoming metadata [md]: one new map, holding the values of [md]
    and, when there is a remote address, that address appended under the
    lowered key. *)
Lemma CopyMetadata_incoming (ctx serverCtx : Context) (s : State) (md : MD) :
  metadata.FromIncomingContext serverCtx = Some md ->
  CopyMetadata ctx serverCtx s =
    (metadata.NewOutgoingContext ctx (fresh (dom (heap s))),
     {| heap := <[fresh (dom (heap s)) :=
                   if strings.len (RemoteIp serverCtx) =? 0
                   then deref (heap s) md
                   else metadata.append_at "x-forwarded-for" [RemoteIp serverCtx]
                          (deref (heap s) md)]> (heap s);
        nextScope := nextScope s;
        trace := trace s |}).
Proof.
  intros Hmd. unfold CopyMetadata. rewrite Hmd.
  unfold metadata.Copy, metadata.Append, bind, load, alloc, update, ret; simpl.
  destruct (strings.len (RemoteIp serverCtx) =? 0); simpl.
  - reflexivity.
  - f_equal. f_equal.
    unfold deref at 1. rewrite lookup_insert_eq; simpl.
    by rewrite insert_insert_eq.
Qed.

(** Without incoming metadata: nothing happens when there is no remote
    address, else one new map with the single pair. *)
Lemma CopyMetadata_no_incoming (ctx serverCtx : Context) (s : State) :
  metadata.FromIncomingContext serverCtx = None ->
  CopyMetadata ctx serverCtx s =
    if strings.len (RemoteIp serverCtx) =? 0 then (ctx, s)
    else
      (metadata.NewOutgoingContext ctx (fresh (dom (heap s))),
       {| heap := <[fresh (dom (heap s)) :=
                     {[ "x-forwarded-for" := [RemoteIp serverCtx] ]}]> (heap s);
          nextScope := nextScope s;
          trace := trace s |}).
Proof.
  intros Hmd. unfold CopyMetadata. rewrite Hmd.
  destruct (strings.len (RemoteIp serverCtx) =? 0); [reflexivity|].
  unfold metadata.Pairs, bind, alloc, ret; simpl.
  reflexivity.
Qed.

Lemma CopyMetadata_trace (ctx serverCtx : Context) (s : State) :
  trace (CopyMetadata ctx serverCtx s).2 = trace s.
Proof.
  destruct (metadata.FromIncomingContext serverCtx) as [md|] eqn:E.
  - by rewrite (CopyMetadata_incoming _ _ _ _ E).
  - rewrite (CopyMetadata_no_incoming _ _ _ E).
    by destruct (strings.len (RemoteIp serverCtx) =? 0).
Qed.

Lemma CopyMetadata_scopes (ctx serverCtx : Context) (s : State) :
  ctx_scopes (CopyMetadata ctx serverCtx s).1 = ctx_scopes ctx.
Proof.
  destruct (metadata.FromIncomingContext serverCtx) as [md|] eqn:E.
  - by rewrite (CopyMetadata_incoming _ _ _ _ E).
  - rewrite (CopyMetadata_no_incoming _ _ _ E).
    by destruct (strings.len (RemoteIp serverCtx) =? 0).
Qed.

(** ** Sample addresses *)

(** The caller of the specification's example, as the transport prints
    it. *)
Example Addr_String_tcp4 : net.Addr_String Sample.tcp4 = "203.0.113.5:54321".
Proof. reflexivity. Qed.

Example Addr_String_tcp6 : net.Addr_String Sample.tcp6 = "[2001:db8::1%eth0]:443".
Proof. reflexivity. Qed.

Example RemoteIp_tcp4 : RemoteIp (Sample.inbound None (Some Sample.tcp4)) = "203.0.113.5".
Proof. reflexivity. Qed.

Example RemoteIp_tcp6 : RemoteIp (Sample.inbound None (Some Sample.tcp6)) = "2001:db8::1".
Proof. reflexivity. Qed.

Example RemoteIp_bracketed :
  RemoteIp (Sample.inbound None (Some (net.Other "udp" "[2001:db8::1]:53"))) = "[2001:db8::1]".
Proof. reflexivity. Qed.

(** ** The claims about [RemoteIp] and [CopyMetadata] *)

(** C5.  [RemoteIp] yields the empty string for a context without peer
    information; for a TCP socket address it yields the text of the IP
    alone, whatever the port and zone; for any other address it drops the
    port suffix, the text from the last colon on, and yields the whole
    text when there is no colon. *)
Theorem RemoteIp_strips_port (ctx : Context) :
  (peer.FromContext ctx = None -> RemoteIp ctx = "") /\
  (forall ip port zone,
      peer.FromContext ctx =
        Some (net.TCP {| net.IP_ := ip; net.Port := port; net.Zone := zone |}) ->
      RemoteIp ctx = net.IP_String ip) /\
  (forall network host port,
      peer.FromContext ctx = Some (net.Other network (host ++ ":" ++ port)) ->
      strings.occurs ":" port = false ->
      RemoteIp ctx = host) /\
  (forall network text,
      peer.FromContext ctx = Some (net.Other network text) ->
      strings.occurs ":" text = false ->
      RemoteIp ctx = text).
Proof.
  split; [apply RemoteIp_no_peer|].
  split; [intros ip port zone H; by rewrite (RemoteIp_tcp _ _ H)|].
  split; [intros network host port; apply RemoteIp_host_port|].
  intros network text; apply RemoteIp_no_port.
Qed.

Lemma RemoteIp_strips_port_witness :
  RemoteIp Sample.background = "" /\
  RemoteIp (Sample.inbound None (Some Sample.tcp4)) = net.IP_String Sample.ip4 /\
  RemoteIp (Sample.inbound None (Some Sample.hostport)) = "203.0.113.5" /\
  RemoteIp (Sample.inbound None (Some Sample.pipe)) = "pipe".
Proof.
  split; [|split; [|split]].
  - apply (RemoteIp_strips_port Sample.background). reflexivity.
  - apply (RemoteIp_strips_port (Sample.inbound None (Some Sample.tcp4))) with (port := 54321) (zone := "").
    reflexivity.
  - apply (RemoteIp_strips_port (Sample.inbound None (Some Sample.hostport)))
      with (network := "tcp") (port := "54321"); reflexivity.
  - apply (RemoteIp_strips_port (Sample.inbound None (Some Sample.pipe)))
      with (network := "pipe"); reflexivity.
Defined.

(** C4.  When the inbound context carries metadata [md] and a caller
    address is derivable, [CopyMetadata] attaches a new map to the
    outgoing context: it holds the inbound metadata, with the caller's
    address added at the end of the values already under
    [x-forwarded-for] (none, when the key was absent).  Every other map,
    the inbound one included, is left as it was. *)
Theorem CopyMetadata_appends_forwarded_for
    (ctx serverCtx : Context) (s : State) (md : MD) (m : MDmap) :
  metadata.FromIncomingContext serverCtx = Some md ->
  heap s !! md = Some m ->
  RemoteIp serverCtx <> "" ->
  exists (md' : MD) (s' : State),
    CopyMetadata ctx serverCtx s = (metadata.NewOutgoingContext ctx md', s') /\
    heap s !! md' = None /\
    heap s' !! md' =
      Some (<["x-forwarded-for" :=
               (default [] (m !! "x-forwarded-for") ++ [RemoteIp serverCtx])%list]> m) /\
    (forall r, r <> md' -> heap s' !! r = heap s !! r) /\
    trace s' = trace s.
Proof.
  intros Hmd Hm Hip. eexists _, _.
  split; [apply (CopyMetadata_incoming _ _ _ _ Hmd)|].
  apply len_nonzero_iff in Hip. rewrite Hip. simpl.
  split; [apply fresh_unused|].
  split; [rewrite lookup_insert_eq; unfold deref; by rewrite Hm|].
  split; [|reflexivity].
  intros r Hr. by rewrite lookup_insert_ne.
Qed.

(** The example of the specification: inbound metadata [{"k":"v"}] and
    caller [203.0.113.5:54321]. *)
Lemma CopyMetadata_appends_forwarded_for_witness :
  exists (md' : MD) (s' : State),
    CopyMetadata Sample.background (Sample.inbound (Some 0%nat) (Some Sample.tcp4))
      (Sample.one_map {[ "k" := ["v"] ]})
    = (metadata.NewOutgoingContext Sample.background md', s') /\
    heap s' !! md' = Some {[ "k" := ["v"]; "x-forwarded-for" := ["203.0.113.5"] ]} /\
    heap s' !! 0%nat = Some {[ "k" := ["v"] ]}.
Proof.
  destruct (CopyMetadata_appends_forwarded_for Sample.background
              (Sample.inbound (Some 0%nat) (Some Sample.tcp4))
              (Sample.one_map {[ "k" := ["v"] ]}) 0%nat {[ "k" := ["v"] ]})
    as (md' & s' & Hrun & Hfresh & Hnew & Hold & _).
  - reflexivity.
  - reflexivity.
  - discriminate.
  - exists md', s'. split; [exact Hrun|]. split.
    + rewrite Hnew. vm_compute. exact eq_refl.
    + rewrite Hold; [reflexivity|]. intros E. rewrite <- E in Hfresh. discriminate Hfresh.
Defined.

(** The same with the address given as text, and with values already
    under the key: they are kept, in order, before the new one. *)
Example CopyMetadata_keeps_earlier_hops :
  let s' := (CopyMetadata Sample.background
               (Sample.inbound (Some 0%nat) (Some Sample.hostport))
               (Sample.one_map {[ "x-forwarded-for" := ["198.51.100.7"; "10.0.0.1"] ]})).2 in
  heap s' !! 1%nat =
    Some {[ "x-forwarded-for" := ["198.51.100.7"; "10.0.0.1"; "203.0.113.5"] ]}.
Proof. vm_compute. exact eq_refl. Qed.

(** C8.  When the inbound context carries no metadata, [CopyMetadata]
    attaches a new map holding only [x-forwarded-for] with the caller's
    address when one is derivable, and returns the outgoing context as it
    got it, allocating nothing, when none is. *)
Theorem CopyMetadata_without_incoming (ctx serverCtx : Context) (s : State) :
  metadata.FromIncomingContext serverCtx = None ->
  (RemoteIp serverCtx <> "" ->
   exists (md' : MD) (s' : State),
     CopyMetadata ctx serverCtx s = (metadata.NewOutgoingContext ctx md', s') /\
     heap s !! md' = None /\
     heap s' !! md' = Some {[ "x-forwarded-for" := [RemoteIp serverCtx] ]} /\
     (forall r, r <> md' -> heap s' !! r = heap s !! r) /\
     trace s' = trace s) /\
  (RemoteIp serverCtx = "" -> CopyMetadata ctx serverCtx s = (ctx, s)).
Proof.
  intros Hmd. rewrite (CopyMetadata_no_incoming _ _ _ Hmd). split.
  - intros Hip. apply len_nonzero_iff in Hip. rewrite Hip.
    eexists _, _. split; [reflexivity|]. simpl.
    split; [apply fresh_unused|].
    split; [by rewrite lookup_insert_eq|].
    split; [|reflexivity].
    intros r Hr. by rewrite lookup_insert_ne.
  - intros Hip. apply len_zero_iff in Hip. by rewrite Hip.
Qed.

Lemma CopyMetadata_without_incoming_witness :
  (exists (md' : MD) (s' : State),
     CopyMetadata Sample.background (Sample.inbound None (Some Sample.tcp4)) Sample.no_maps
     = (metadata.NewOutgoingContext Sample.background md', s') /\
     heap s' !! md' = Some {[ "x-forwarded-for" := ["203.0.113.5"] ]}) /\
  CopyMetadata Sample.background (Sample.inbound None None) Sample.no_maps
  = (Sample.background, Sample.no_maps).
Proof.
  split.
  - destruct (CopyMetadata_without_incoming Sample.background
                (Sample.inbound None (Some Sample.tcp4)) Sample.no_maps eq_refl)
      as [Hsome _].
    destruct Hsome as (md' & s' & Hrun & _ & Hnew & _); [discriminate|].
    exists md', s'. split; [exact Hrun | exact Hnew].
  - apply (CopyMetadata_without_incoming Sample.background
             (Sample.inbound None None) Sample.no_maps eq_refl).
    reflexivity.
Defined.

(** C10.  When the inbound context carries metadata [md] but no caller
    address is derivable, [CopyMetadata] attaches a new map with exactly
    the contents of [md]: nothing is added under [x-forwarded-for], and
    [md] itself, a different map, keeps its contents. *)
Theorem CopyMetadata_exact_copy_without_peer
    (ctx serverCtx : Context) (s : State) (md : MD) (m : MDmap) :
  metadata.FromIncomingContext serverCtx = Some md ->
  heap s !! md = Some m ->
  RemoteIp serverCtx = "" ->
  exists (md' : MD) (s' : State),
    CopyMetadata ctx serverCtx s = (metadata.NewOutgoingContext ctx md', s') /\
    md' <> md /\
    heap s' !! md' = Some m /\
    heap s' !! md = Some m /\
    (forall r, r <> md' -> heap s' !! r = heap s !! r) /\
    trace s' = trace s.
Proof.
  intros Hmd Hm Hip. eexists _, _.
  split; [apply (CopyMetadata_incoming _ _ _ _ Hmd)|].
  apply len_zero_iff in Hip. rewrite Hip. simpl.
  pose proof (fresh_other _ _ _ Hm) as Hne.
  split; [exact Hne|].
  split; [rewrite lookup_insert_eq; unfold deref; by rewrite Hm|].
  split; [by rewrite lookup_insert_ne|].
  split; [|reflexivity].
  intros r Hr. by rewrite lookup_insert_ne.
Qed.

Lemma CopyMetadata_exact_copy_without_peer_witness :
  exists (md' : MD) (s' : State),
    CopyMetadata Sample.background (Sample.inbound (Some 0%nat) None)
      (Sample.one_map {[ "k" := ["v"] ]})
    = (metadata.NewOutgoingContext Sample.background md', s') /\
    md' <> 0%nat /\
    heap s' !! md' = Some {[ "k" := ["v"] ]} /\
    heap s' !! 0%nat = Some {[ "k" := ["v"] ]}.
Proof.
  destruct (CopyMetadata_exact_copy_without_peer Sample.background
              (Sample.inbound (Some 0%nat) None)
              (Sample.one_map {[ "k" := ["v"] ]}) 0%nat {[ "k" := ["v"] ]}
              eq_refl eq_refl eq_refl)
    as (md' & s' & Hrun & Hne & Hnew & Hold & _).
  exists md', s'. repeat split; assumption.
Defined.

(** The copy and the original are distinct maps: a later write through
    the copy is not seen through the original. *)
Lemma copy_is_not_shared (s : State) (md : MD) (m : MDmap) (k v : string) :
  heap s !! md = Some m ->
  let '(md', s1) := metadata.Copy md s in
  let '(_, s2) := metadata.Append md' k [v] s1 in
  heap s2 !! md = Some m.
Proof.
  intros Hm. unfold metadata.Copy, metadata.Append, bind, load, alloc, update; simpl.
  rewrite !lookup_insert_ne by (by apply (fresh_other _ _ m)). exact Hm.
Qed.

(** ** The handler, run from an arbitrary state *)

Section HandlerRuns.

Variable grpc_NewClientStream : Context -> ClientConn -> string -> ClientStream + error.
Variable biDirCopy : ServerStream -> ClientStream -> option error.
Variable h : handler_.
Variable serverStream : ServerStream.

Local Abbreviation routing :=
  (director h (ss_Context serverStream) (ss_Method serverStream)).
Local Abbreviation run := (handler grpc_NewClientStream biDirCopy h serverStream).

(** A routing error ends the call before anything else happens. *)
Lemma handler_rejected (s : State) (err : error) :
  r_err routing = Some err -> run s = (Some err, s).
Proof. intros H. unfold handler. by rewrite H. Qed.

(** The shape of every run in which the Director routed the call.
    [ctx] is the context the stream is opened with, [c] the call's
    cancellation function and [s1] the state before the stream is
    opened. *)
Lemma handler_routed (s : State) :
  r_err routing = None ->
  exists (ctx : Context) (s1 : State),
    let c := default (DerivedCancel (nextScope s)) (r_cancel routing) in
    let dir := r_dir routing in
    let m := if negb (strings.len (Method dir) =? 0) then Method dir
             else ss_Method serverStream in
    trace s1 = trace s /\
    (metadata.FromOutgoingContext_ok (r_ctx routing) = true ->
     ctx_outgoing ctx = ctx_outgoing (r_ctx routing) /\ heap s1 = heap s) /\
    (r_cancel routing = None ->
     ctx_scopes ctx = nextScope s :: ctx_scopes (r_ctx routing)) /\
    run s =
      match grpc_NewClientStream ctx (BackendConn dir) m with
      | inr err =>
          (Some err,
           with_events s1 [EvNewClientStream ctx (BackendConn dir) m; EvCancel c])
      | inl cs =>
          let err := normalise (biDirCopy serverStream cs) in
          (err,
           with_events s1
             ([EvNewClientStream ctx (BackendConn dir) m; EvBiDirCopy serverStream cs]
              ++ done_events dir err ++ [EvCancel c])%list)
      end.
Proof.
  intros Herr. unfold handler. rewrite Herr.
  set (dir := r_dir routing).
  set (m := if negb (strings.len (Method dir) =? 0) then Method dir
            else ss_Method serverStream).
  (* the scope of the call *)
  assert (exists ctx1 s0,
             (match r_cancel routing with
              | None => context.WithCancel (r_ctx routing)
              | Some clientCancel => ret (r_ctx routing, clientCancel)
              end) s
             = ((ctx1, default (DerivedCancel (nextScope s)) (r_cancel routing)), s0)
             /\ trace s0 = trace s /\ heap s0 = heap s
             /\ ctx_outgoing ctx1 = ctx_outgoing (r_ctx routing)
             /\ (r_cancel routing = None ->
                 ctx_scopes ctx1 = nextScope s :: ctx_scopes (r_ctx routing)))
    as (ctx1 & s0 & Hscope & Ht0 & Hh0 & Hout & Hsc).
  { destruct (r_cancel routing) as [c0|]; simpl.
    - by exists (r_ctx routing), s.
    - eexists _, _. split; [reflexivity|]. by simpl. }
  (* the outgoing metadata *)
  assert (exists ctx2 s1,
             (if negb (metadata.FromOutgoingContext_ok ctx1)
              then CopyMetadata ctx1 (ss_Context serverStream)
              else ret ctx1) s0 = (ctx2, s1)
             /\ trace s1 = trace s
             /\ (metadata.FromOutgoingContext_ok (r_ctx routing) = true ->
                 ctx_outgoing ctx2 = ctx_outgoing (r_ctx routing) /\ heap s1 = heap s)
             /\ ctx_scopes ctx2 = ctx_scopes ctx1)
    as (ctx2 & s1 & Hmeta & Ht1 & Hkeep & Hsc2).
  { assert (metadata.FromOutgoingContext_ok ctx1
            = metadata.FromOutgoingContext_ok (r_ctx routing)) as Hok
      by (unfold metadata.FromOutgoingContext_ok; by rewrite Hout).
    rewrite Hok.
    destruct (metadata.FromOutgoingContext_ok (r_ctx routing)); simpl.
    - by exists ctx1, s0.
    - destruct (CopyMetadata ctx1 (ss_Context serverStream) s0) as [ctx2 s1] eqn:E.
      exists ctx2, s1. split; [reflexivity|]. split; [|split; [discriminate|]].
      + rewrite <- Ht0. change s1 with (ctx2, s1).2. rewrite <- E.
        apply CopyMetadata_trace.
      + change ctx2 with (ctx2, s1).1. rewrite <- E.
        apply CopyMetadata_scopes. }
  exists ctx2, s1. cbv zeta. split; [exact Ht1|]. split; [exact Hkeep|].
  split; [intros Hc; rewrite Hsc2; by apply Hsc|].
  unfold bind at 1. rewrite Hscope.
  unfold defer, bind at 1. unfold bind at 1. rewrite Hmeta.
  fold dir. fold m.
  unfold NewClientStream, call_biDirCopy, call_Done, call_Cancel, bind, ret, emit,
    normalise, done_events, with_events; simpl.
  destruct (grpc_NewClientStream ctx2 (BackendConn dir) m) as [cs|err]; simpl.
  - destruct (Done dir) as [done|]; simpl; rewrite <- ?app_assoc; reflexivity.
  - rewrite <- ?app_assoc; reflexivity.
Qed.

(** The handler only adds calls to the trace. *)
Lemma handler_extends_trace (s : State) :
  trace (run s).2 = (trace s ++ emitted s (run s).2)%list.
Proof.
  destruct (r_err routing) as [e|] eqn:Herr.
  - rewrite (handler_rejected _ _ Herr). simpl.
    by rewrite emitted_same, app_nil_r.
  - destruct (handler_routed s Herr) as (ctx & s1 & Ht & _ & _ & Hrun).
    cbv zeta in Hrun. rewrite Hrun.
    destruct (grpc_NewClientStream _ _ _); cbn [fst snd];
      rewrite emitted_with_events by done; unfold with_events; simpl; by rewrite Ht.
Qed.

(** When the handler derives the cancellation function itself, the
    stream is opened in the scope that this function cancels. *)
Lemma handler_derived_scope (s : State) :
  r_err routing = None ->
  r_cancel routing = None ->
  exists (ctx : Context) (conn : ClientConn) (m : string),
    stream_opens (emitted s (run s).2) = [(ctx, conn, m)] /\
    ctx_scopes ctx = nextScope s :: ctx_scopes (r_ctx routing) /\
    cancel_calls (emitted s (run s).2) = [DerivedCancel (nextScope s)].
Proof.
  intros Herr Hc.
  destruct (handler_routed s Herr) as (ctx & s1 & Ht & _ & Hsc & Hrun).
  cbv zeta in Hrun. rewrite Hc in Hrun. simpl in Hrun.
  exists ctx. eexists _, _. rewrite Hrun.
  destruct (grpc_NewClientStream _ _ _); cbn [fst snd];
    rewrite emitted_with_events by done.
  - unfold done_events. destruct (Done (r_dir routing)); simpl; auto.
  - simpl; auto.
Qed.

End HandlerRuns.

(** ** The claims about the handler *)

(** Membership of a call in an explicit list of calls. *)
Ltac pick_event H :=
  repeat (apply elem_of_cons in H as [H|H];
          [try discriminate H|]);
  try (apply elem_of_nil in H; contradiction).

Section HandlerClaims.

Variable grpc_NewClientStream : Context -> ClientConn -> string -> ClientStream + error.
Variable biDirCopy : ServerStream -> ClientStream -> option error.
Variable h : handler_.
Variable serverStream : ServerStream.

Local Abbreviation routing :=
  (director h (ss_Context serverStream) (ss_Method serverStream)).
Local Abbreviation run := (handler grpc_NewClientStream biDirCopy h serverStream).

(** C7.  When the Director returns a routing error the handler returns
    that error at once: the state is untouched, so no stream was opened
    and nothing was relayed. *)
Theorem handler_routing_error (s : State) (err : error) :
  r_err routing = Some err ->
  run s = (Some err, s) /\
  stream_opens (emitted s (run s).2) = [] /\
  relays (emitted s (run s).2) = [].
Proof.
  intros H. rewrite (handler_rejected _ _ _ _ _ _ H). simpl.
  by rewrite emitted_same.
Qed.

(** C2.  When the Director routes the call, the call's cancellation
    function (the Director's, or else the one derived by
    [context.WithCancel]) is called exactly once during the run, and
    it is the last thing the handler does, whether the stream could be
    opened or not and whatever the relay returned. *)
Theorem handler_cancels_exactly_once (s : State) :
  r_err routing = None ->
  let c := match r_cancel routing with
           | Some clientCancel => clientCancel
           | None => DerivedCancel (nextScope s)
           end in
  cancel_calls (emitted s (run s).2) = [c] /\
  last (trace (run s).2) = Some (EvCancel c).
Proof.
  intros Herr c.
  destruct (handler_routed grpc_NewClientStream biDirCopy h serverStream s Herr)
    as (ctx & s1 & Ht & _ & _ & Hrun).
  cbv zeta in Hrun. rewrite Hrun.
  assert (default (DerivedCancel (nextScope s)) (r_cancel routing) = c) as ->
    by (subst c; by destruct (r_cancel routing)).
  destruct (grpc_NewClientStream _ _ _) as [cs|e]; cbn [fst snd].
  - rewrite emitted_with_events by done. split.
    + unfold done_events. by destruct (Done (r_dir routing)).
    + rewrite app_assoc. apply last_trace_with_events.
  - rewrite emitted_with_events by done. split; [done|].
    apply (last_trace_with_events s1 [_]).
Qed.

(** C3.  When the context returned by the Director already carries
    outgoing metadata, the context the stream is opened with carries
    that same metadata value, and the heap of metadata maps is what it
    was: nothing was copied, merged or appended. *)
Theorem handler_keeps_director_metadata (s : State) :
  r_err routing = None ->
  metadata.FromOutgoingContext_ok (r_ctx routing) = true ->
  exists (ctx : Context) (conn : ClientConn) (m : string),
    stream_opens (emitted s (run s).2) = [(ctx, conn, m)] /\
    ctx_outgoing ctx = ctx_outgoing (r_ctx routing) /\
    heap (run s).2 = heap s.
Proof.
  intros Herr Hok.
  destruct (handler_routed grpc_NewClientStream biDirCopy h serverStream s Herr)
    as (ctx & s1 & Ht & Hkeep & _ & Hrun).
  cbv zeta in Hrun. destruct (Hkeep Hok) as [Hout Hheap].
  exists ctx. eexists _, _. rewrite Hrun.
  destruct (grpc_NewClientStream _ _ _) as [cs|e]; cbn [fst snd];
    rewrite emitted_with_events by done.
  - split; [|by split].
    unfold done_events. by destruct (Done (r_dir routing)).
  - by split.
Qed.

(** C9.  When the Director routes the call, exactly one stream is
    opened, on the Director's connection, with the method of the
    Routing Decision when that is not empty and with the inbound
    method name when it is. *)
Theorem handler_opens_with_method (s : State) :
  r_err routing = None ->
  exists (ctx : Context) (m : string),
    stream_opens (emitted s (run s).2) = [(ctx, BackendConn (r_dir routing), m)] /\
    (Method (r_dir routing) <> "" -> m = Method (r_dir routing)) /\
    (Method (r_dir routing) = "" -> m = ss_Method serverStream).
Proof.
  intros Herr.
  destruct (handler_routed grpc_NewClientStream biDirCopy h serverStream s Herr)
    as (ctx & s1 & Ht & _ & _ & Hrun).
  cbv zeta in Hrun. exists ctx. eexists. split.
  - rewrite Hrun.
    destruct (grpc_NewClientStream _ _ _) as [cs|e]; cbn [fst snd];
      rewrite emitted_with_events by done.
    + unfold done_events. by destruct (Done (r_dir routing)).
    + reflexivity.
  - split.
    + intros Hm. apply len_nonzero_iff in Hm. by rewrite Hm.
    + intros Hm. apply len_zero_iff in Hm. by rewrite Hm.
Qed.

(** C1, as the code has it.  When the stream the handler asks for
    cannot be opened, the handler returns the error of the attempt and
    relays nothing; the Director's completion callback is not called,
    not even when one was supplied.  The cancellation function is
    still called, once. *)
Theorem handler_establishment_error
    (s : State) (ctx : Context) (conn : ClientConn) (m : string) (err : error) :
  EvNewClientStream ctx conn m ∈ emitted s (run s).2 ->
  grpc_NewClientStream ctx conn m = inr err ->
  (run s).1 = Some err /\
  done_calls (emitted s (run s).2) = [] /\
  relays (emitted s (run s).2) = [] /\
  length (cancel_calls (emitted s (run s).2)) = 1%nat.
Proof.
  intros Hin Hfail.
  destruct (r_err routing) as [e0|] eqn:Herr.
  { rewrite (handler_rejected _ _ _ _ _ _ Herr) in Hin. simpl in Hin.
    rewrite emitted_same in Hin by done. pick_event Hin. }
  destruct (handler_routed grpc_NewClientStream biDirCopy h serverStream s Herr)
    as (ctx' & s1 & Ht & _ & _ & Hrun).
  cbv zeta in Hrun. rewrite Hrun in Hin |- *.
  destruct (grpc_NewClientStream ctx' _ _) as [cs|e] eqn:Hopen; cbn [fst snd] in *;
    rewrite emitted_with_events in Hin |- * by done.
  - exfalso. unfold done_events in Hin.
    destruct (Done (r_dir routing)); pick_event Hin;
      injection Hin as -> -> ->; congruence.
  - pick_event Hin. injection Hin as -> -> ->.
    rewrite Hopen in Hfail. injection Hfail as ->. done.
Qed.

(** C6.  When the relay returns [io.EOF], the handler returns no
    error, and the completion callback, when the Director gave one,
    is called once, with no error. *)
Theorem handler_normalises_EOF (s : State) (cs : ClientStream) :
  EvBiDirCopy serverStream cs ∈ emitted s (run s).2 ->
  biDirCopy serverStream cs = Some io_EOF ->
  (run s).1 = None /\
  done_calls (emitted s (run s).2) =
    match Done (r_dir routing) with
    | Some done => [(done, None)]
    | None => []
    end.
Proof.
  intros Hin Heof.
  destruct (r_err routing) as [e0|] eqn:Herr.
  { rewrite (handler_rejected _ _ _ _ _ _ Herr) in Hin. simpl in Hin.
    rewrite emitted_same in Hin by done. pick_event Hin. }
  destruct (handler_routed grpc_NewClientStream biDirCopy h serverStream s Herr)
    as (ctx' & s1 & Ht & _ & _ & Hrun).
  cbv zeta in Hrun. rewrite Hrun in Hin |- *.
  destruct (grpc_NewClientStream ctx' _ _) as [cs'|e] eqn:Hopen; cbn [fst snd] in *;
    rewrite emitted_with_events in Hin |- * by done.
  - assert (cs' = cs) as ->.
    { unfold done_events in Hin.
      destruct (Done (r_dir routing)); pick_event Hin; by injection Hin. }
    rewrite Heof. unfold done_events.
    by destruct (Done (r_dir routing)).
  - pick_event Hin.
Qed.

End HandlerClaims.

(** ** Sample runs *)

(** A whole run: the call is routed, metadata copied into a new map, the
    stream opened, the relay ends with [io.EOF], the callback gets [nil]
    and the derived scope is cancelled. *)
Example handler_run_to_EOF :
  let '(err, s') := handler Calls.accept Calls.relay_eof
                      {| director := Calls.shielding |} Calls.ping Calls.start in
  (err, trace s') =
  (None, [EvNewClientStream Calls.ping_outgoing 1%nat "/pkg.Service/Ping";
          EvBiDirCopy Calls.ping 5%nat;
          EvDone 7%nat None;
          EvCancel (DerivedCancel 0)]).
Proof. vm_compute. exact eq_refl. Qed.

(** The metadata the backend sees in that run. *)
Example handler_run_to_EOF_metadata :
  heap (handler Calls.accept Calls.relay_eof
          {| director := Calls.shielding |} Calls.ping Calls.start).2 !! 1%nat
  = Some {[ "k" := ["v"]; "x-forwarded-for" := ["203.0.113.5"] ]}.
Proof. vm_compute. exact eq_refl. Qed.

(** A status from the relay is returned, and reported, as it is. *)
Example handler_run_to_status :
  let '(err, s') := handler Calls.accept Calls.relay_status
                      {| director := Calls.shielding |} Calls.ping Calls.start in
  (err, done_calls (trace s')) =
  (Some (StatusError 14 "backend unavailable"),
   [(7%nat, Some (StatusError 14 "backend unavailable"))]).
Proof. vm_compute. exact eq_refl. Qed.

Lemma handler_routing_error_witness :
  handler Calls.accept Calls.relay_eof {| director := Calls.shielding |}
    Calls.internal Calls.start
  = (Some Calls.unimplemented, Calls.start).
Proof.
  apply (handler_routing_error Calls.accept Calls.relay_eof
           {| director := Calls.shielding |} Calls.internal Calls.start
           Calls.unimplemented).
  reflexivity.
Defined.

(** The three ways out of a routed call, and a supplied function. *)
Lemma handler_cancels_exactly_once_witness :
  cancel_calls (emitted Calls.start
     (handler Calls.accept Calls.relay_nil {| director := Calls.shielding |}
        Calls.ping Calls.start).2) = [DerivedCancel 0] /\
  cancel_calls (emitted Calls.start
     (handler Calls.refuse Calls.relay_nil {| director := Calls.shielding |}
        Calls.ping Calls.start).2) = [DerivedCancel 0] /\
  cancel_calls (emitted Calls.start
     (handler Calls.accept Calls.relay_status {| director := Calls.shielding |}
        Calls.ping Calls.start).2) = [DerivedCancel 0] /\
  cancel_calls (emitted Calls.start
     (handler Calls.accept Calls.relay_nil {| director := Calls.overriding |}
        Calls.ping Calls.start).2) = [SuppliedCancel 3].
Proof.
  split; [|split; [|split]].
  - apply (handler_cancels_exactly_once Calls.accept Calls.relay_nil
             {| director := Calls.shielding |} Calls.ping Calls.start). reflexivity.
  - apply (handler_cancels_exactly_once Calls.refuse Calls.relay_nil
             {| director := Calls.shielding |} Calls.ping Calls.start). reflexivity.
  - apply (handler_cancels_exactly_once Calls.accept Calls.relay_status
             {| director := Calls.shielding |} Calls.ping Calls.start). reflexivity.
  - apply (handler_cancels_exactly_once Calls.accept Calls.relay_nil
             {| director := Calls.overriding |} Calls.ping Calls.start). reflexivity.
Defined.

Lemma handler_keeps_director_metadata_witness :
  exists (ctx : Context) (conn : ClientConn) (m : string),
    stream_opens (emitted Calls.start
       (handler Calls.accept Calls.relay_nil {| director := Calls.overriding |}
          Calls.ping Calls.start).2) = [(ctx, conn, m)] /\
    ctx_outgoing ctx = Some {| raw_md := 0%nat; raw_added := [] |} /\
    heap (handler Calls.accept Calls.relay_nil {| director := Calls.overriding |}
            Calls.ping Calls.start).2 = heap Calls.start.
Proof.
  apply (handler_keeps_director_metadata Calls.accept Calls.relay_nil
           {| director := Calls.overriding |} Calls.ping Calls.start);
    reflexivity.
Defined.

Lemma handler_opens_with_method_witness :
  (exists ctx,
     stream_opens (emitted Calls.start
        (handler Calls.accept Calls.relay_nil {| director := Calls.overriding |}
           Calls.ping Calls.start).2) = [(ctx, 2%nat, "/backend.Service/Ping")]) /\
  (exists ctx,
     stream_opens (emitted Calls.start
        (handler Calls.accept Calls.relay_nil {| director := Calls.shielding |}
           Calls.ping Calls.start).2) = [(ctx, 1%nat, "/pkg.Service/Ping")]).
Proof.
  split.
  - destruct (handler_opens_with_method Calls.accept Calls.relay_nil
                {| director := Calls.overriding |} Calls.ping Calls.start eq_refl)
      as (ctx & m & Hopen & Hset & _).
    exists ctx. rewrite Hopen, Hset; [reflexivity | discriminate].
  - destruct (handler_opens_with_method Calls.accept Calls.relay_nil
                {| director := Calls.shielding |} Calls.ping Calls.start eq_refl)
      as (ctx & m & Hopen & _ & Hunset).
    exists ctx. rewrite Hopen, Hunset; reflexivity.
Defined.

(** The Director gave the callback 7; the backend refuses the stream. *)
Lemma handler_establishment_error_witness :
  (handler Calls.refuse Calls.relay_nil {| director := Calls.shielding |}
     Calls.ping Calls.start).1 = Some Calls.unavailable /\
  done_calls (emitted Calls.start
     (handler Calls.refuse Calls.relay_nil {| director := Calls.shielding |}
        Calls.ping Calls.start).2) = [].
Proof.
  destruct (handler_establishment_error Calls.refuse Calls.relay_nil
              {| director := Calls.shielding |} Calls.ping Calls.start
              Calls.ping_outgoing 1%nat "/pkg.Service/Ping" Calls.unavailable)
    as (Herr & Hdone & _).
  - vm_compute. repeat constructor.
  - reflexivity.
  - split; [exact Herr | exact Hdone].
Defined.

Lemma handler_normalises_EOF_witness :
  (handler Calls.accept Calls.relay_eof {| director := Calls.shielding |}
     Calls.ping Calls.start).1 = None /\
  done_calls (emitted Calls.start
     (handler Calls.accept Calls.relay_eof {| director := Calls.shielding |}
        Calls.ping Calls.start).2) = [(7%nat, None)].
Proof.
  apply (handler_normalises_EOF Calls.accept Calls.relay_eof
           {| director := Calls.shielding |} Calls.ping Calls.start 5%nat).
  - vm_compute. repeat constructor.
  - reflexivity.
Defined.

(** * Further properties *)

(** ** More on byte strings and on the text of an IP *)

Lemma append_cons_nonempty (a b : string) (c : ascii) : a ++ String c b <> "".
Proof. destruct a; [rewrite append_nil_l | rewrite append_cons_l]; discriminate. Qed.

Lemma append_nonempty_l (a b : string) : a <> "" -> a ++ b <> "".
Proof. destruct a; [done|]. intros _. rewrite append_cons_l. discriminate. Qed.

Lemma occurs_append (c : ascii) (a b : string) :
  strings.occurs c (a ++ b) = strings.occurs c a || strings.occurs c b.
Proof.
  induction a as [|x a IH].
  - by rewrite append_nil_l.
  - rewrite append_cons_l. simpl. rewrite IH. by rewrite orb_assoc.
Qed.

(** A text with a colon splits at its last colon. *)
Lemma split_at_last_colon (s : string) :
  strings.occurs ":" s = true ->
  exists a b, s = a ++ ":" ++ b /\ strings.occurs ":" b = false.
Proof.
  induction s as [|c s IH]; cbn [strings.occurs]; [discriminate|].
  destruct (strings.occurs ":" s) eqn:Hs.
  - intros _. destruct (IH eq_refl) as (a & b & -> & Hb).
    exists (String c a), b. by rewrite append_cons_l.
  - rewrite orb_false_r. intros Hc. apply Ascii.eqb_eq in Hc as <-.
    exists "", s. by rewrite append_nil_l, append_cons_l, append_nil_l.
Qed.

Lemma uitoa_no_colon (n : N) : strings.occurs ":" (net.uitoa n) = false.
Proof.
  unfold net.uitoa. generalize (N.to_uint n). intros d.
  induction d; simpl; try exact IHd; reflexivity.
Qed.

Lemma appendHex_nonempty (i : N) : net.appendHex i <> "".
Proof.
  unfold net.appendHex. destruct (i =? 0)%N eqn:Hi; [discriminate|].
  apply N.eqb_neq in Hi.
  set (f := fun (j : N) (acc : string) =>
              if (0 <? N.shiftr i (j * 4))%N
              then String (net.hexDigit (N.land (N.shiftr i (j * 4)) 15)) acc
              else acc).
  assert (forall l acc, acc <> "" -> fold_right f acc l <> "") as Hkeep.
  { induction l as [|j l IH]; intros acc Hacc; simpl; [done|].
    unfold f at 1. destruct (0 <? _)%N; [discriminate | by apply IH]. }
  change (fold_right f (f 0%N "") [7; 6; 5; 4; 3; 2; 1]%N <> "").
  apply Hkeep. unfold f. change (0 * 4)%N with 0%N. rewrite N.shiftr_0_r.
  assert ((0 <? i)%N = true) as -> by (apply N.ltb_lt; lia).
  discriminate.
Qed.

Lemma IP_String_nonempty (ip : net.IP) : net.IP_String ip <> "".
Proof.
  unfold net.IP_String.
  destruct (net.iplen ip =? 0); [discriminate|].
  destruct (net.iplen (net.To4 ip) =? net.IPv4len); [apply append_cons_nonempty|].
  destruct (negb (net.iplen ip =? net.IPv6len)); [rewrite append_cons_l; discriminate|].
  destruct (net.longestZeroRun 8 ip 0 (-1) (-1)) as [e0 e1].
  destruct (if e1 - e0 <=? 2 then (-1, -1) else (e0, e1)) as [f0 f1].
  cbn [net.printGroups]. change (0 <? net.IPv6len) with true. cbn iota.
  destruct (0 =? f0).
  - rewrite append_cons_l. discriminate.
  - change (0 <? 0) with false. cbn iota. rewrite append_nil_l.
    apply append_nonempty_l, appendHex_nonempty.
Qed.

Lemma To4_len (ip : net.IP) :
  net.iplen (net.To4 ip) = net.IPv4len -> (net.iplen ip =? 0) = false.
Proof.
  unfold net.To4.
  destruct (net.iplen ip =? net.IPv4len) eqn:H4.
  - intros _. apply Z.eqb_eq in H4. rewrite H4. reflexivity.
  - destruct (net.iplen ip =? net.IPv6len) eqn:H6; simpl.
    + intros _. apply Z.eqb_eq in H6. rewrite H6. reflexivity.
    + discriminate.
Qed.

Lemma IPv4_String_no_colon (ip : net.IP) :
  net.iplen (net.To4 ip) = net.IPv4len ->
  strings.occurs ":" (net.IP_String ip) = false.
Proof.
  intros H. unfold net.IP_String. rewrite (To4_len _ H), H. simpl.
  rewrite !occurs_append, !uitoa_no_colon. reflexivity.
Qed.

(** ** More on [RemoteIp] *)

(** X1.  For a TCP peer [RemoteIp] is never empty (an address without
    IP prints as [<nil>]), so [CopyMetadata] always attaches outgoing
    metadata for such a peer. *)
Theorem RemoteIp_tcp_nonempty (serverCtx : Context) (a : net.TCPAddr) :
  peer.FromContext serverCtx = Some (net.TCP a) ->
  RemoteIp serverCtx <> "" /\
  forall (ctx : Context) (s : State),
    metadata.FromOutgoingContext_ok (CopyMetadata ctx serverCtx s).1 = true.
Proof.
  intros Hpeer.
  assert (RemoteIp serverCtx <> "") as Hip
    by (rewrite (RemoteIp_tcp _ _ Hpeer); apply IP_String_nonempty).
  split; [exact Hip|]. intros ctx s.
  apply len_nonzero_iff in Hip.
  destruct (metadata.FromIncomingContext serverCtx) as [md|] eqn:Hmd.
  - by rewrite (CopyMetadata_incoming _ _ _ _ Hmd).
  - rewrite (CopyMetadata_no_incoming _ _ _ Hmd), Hip. reflexivity.
Qed.

Lemma RemoteIp_tcp_nonempty_witness :
  RemoteIp (Sample.inbound None
              (Some (net.TCP {| net.IP_ := []; net.Port := 80; net.Zone := "" |})))
  = "<nil>" /\
  metadata.FromOutgoingContext_ok
    (CopyMetadata Sample.background (Sample.inbound None (Some Sample.tcp6))
       Sample.no_maps).1 = true.
Proof.
  split.
  - reflexivity.
  - apply (RemoteIp_tcp_nonempty (Sample.inbound None (Some Sample.tcp6))
             {| net.IP_ := Sample.ip6; net.Port := 443; net.Zone := "eth0" |}).
    reflexivity.
Defined.

(** X2.  For a peer that is not a TCP address, [RemoteIp] is the address
    text up to its last colon: either the text has no colon and is
    returned whole, or the text is the result, a colon, and a rest
    without colon. *)
Theorem RemoteIp_cuts_at_last_colon (ctx : Context) (network text : string) :
  peer.FromContext ctx = Some (net.Other network text) ->
  (strings.occurs ":" text = false /\ RemoteIp ctx = text) \/
  (exists rest, text = RemoteIp ctx ++ ":" ++ rest /\ strings.occurs ":" rest = false).
Proof.
  intros Hpeer. destruct (strings.occurs ":" text) eqn:Hc.
  - right. destruct (split_at_last_colon _ Hc) as (a & b & -> & Hb).
    exists b. by rewrite (RemoteIp_host_port _ _ _ _ Hpeer Hb).
  - left. split; [reflexivity|]. by apply (RemoteIp_no_port _ _ _ Hpeer).
Qed.

Lemma RemoteIp_cuts_at_last_colon_witness :
  exists rest,
    "[2001:db8::1]:53" =
      RemoteIp (Sample.inbound None (Some (net.Other "udp" "[2001:db8::1]:53")))
      ++ ":" ++ rest /\
    strings.occurs ":" rest = false.
Proof.
  destruct (RemoteIp_cuts_at_last_colon
              (Sample.inbound None (Some (net.Other "udp" "[2001:db8::1]:53")))
              "udp" "[2001:db8::1]:53" eq_refl) as [[Hno _] | Hsplit].
  - discriminate Hno.
  - exact Hsplit.
Defined.

(** X3.  For a TCP peer with an IPv4 address (4 bytes, or 16 bytes that
    map an IPv4 address) and no zone, the text of the address is
    [RemoteIp], a colon, and the port: the two branches of [RemoteIp]
    agree on such an address. *)
Theorem RemoteIp_ipv4_is_text_without_port (ctx : Context) (ip : net.IP) (port : Z) :
  peer.FromContext ctx =
    Some (net.TCP {| net.IP_ := ip; net.Port := port; net.Zone := "" |}) ->
  net.iplen (net.To4 ip) = net.IPv4len ->
  net.Addr_String (net.TCP {| net.IP_ := ip; net.Port := port; net.Zone := "" |})
  = RemoteIp ctx ++ ":" ++ net.itoa port.
Proof.
  intros Hpeer H4. rewrite (RemoteIp_tcp _ _ Hpeer).
  cbn [net.Addr_String net.IP_ net.Zone net.Port].
  change (negb (strings.len "" =? 0)) with false. cbn iota.
  unfold net.ipEmptyString. rewrite (To4_len _ H4).
  unfold net.JoinHostPort. by rewrite (IPv4_String_no_colon _ H4).
Qed.

Lemma RemoteIp_ipv4_is_text_without_port_witness :
  net.Addr_String Sample.tcp4
  = RemoteIp (Sample.inbound None (Some Sample.tcp4)) ++ ":" ++ "54321".
Proof.
  apply (RemoteIp_ipv4_is_text_without_port
           (Sample.inbound None (Some Sample.tcp4)) Sample.ip4 54321);
    reflexivity.
Defined.

(** ** More on [CopyMetadata] *)

Lemma CopyMetadata_nextScope (ctx serverCtx : Context) (s : State) :
  nextScope (CopyMetadata ctx serverCtx s).2 = nextScope s.
Proof.
  destruct (metadata.FromIncomingContext serverCtx) as [md|] eqn:E.
  - by rewrite (CopyMetadata_incoming _ _ _ _ E).
  - rewrite (CopyMetadata_no_incoming _ _ _ E).
    by destruct (strings.len (RemoteIp serverCtx) =? 0).
Qed.

Lemma CopyMetadata_keeps_maps (ctx serverCtx : Context) (s : State) (r : MD) (m : MDmap) :
  heap s !! r = Some m -> heap (CopyMetadata ctx serverCtx s).2 !! r = Some m.
Proof.
  intros Hr. pose proof (fresh_other _ _ _ Hr) as Hne.
  destruct (metadata.FromIncomingContext serverCtx) as [md|] eqn:E.
  - rewrite (CopyMetadata_incoming _ _ _ _ E). simpl. by rewrite lookup_insert_ne.
  - rewrite (CopyMetadata_no_incoming _ _ _ E).
    destruct (strings.len (RemoteIp serverCtx) =? 0); simpl; [done|].
    by rewrite lookup_insert_ne.
Qed.

Lemma CopyMetadata_fields (ctx serverCtx : Context) (s : State) :
  ctx_incoming (CopyMetadata ctx serverCtx s).1 = ctx_incoming ctx /\
  ctx_peer (CopyMetadata ctx serverCtx s).1 = ctx_peer ctx.
Proof.
  destruct (metadata.FromIncomingContext serverCtx) as [md|] eqn:E.
  - by rewrite (CopyMetadata_incoming _ _ _ _ E).
  - rewrite (CopyMetadata_no_incoming _ _ _ E).
    by destruct (strings.len (RemoteIp serverCtx) =? 0).
Qed.

(** X4.  [CopyMetadata] touches nothing but the outgoing metadata: it
    makes no call, takes no cancellation scope, leaves every map that
    exists as it is, and the context it returns has the incoming
    metadata, the peer and the scopes of the outgoing context it was
    given, not those of the server context. *)
Theorem CopyMetadata_changes_only_outgoing (ctx serverCtx : Context) (s : State) :
  trace (CopyMetadata ctx serverCtx s).2 = trace s /\
  nextScope (CopyMetadata ctx serverCtx s).2 = nextScope s /\
  (forall r m, heap s !! r = Some m ->
               heap (CopyMetadata ctx serverCtx s).2 !! r = Some m) /\
  ctx_incoming (CopyMetadata ctx serverCtx s).1 = ctx_incoming ctx /\
  ctx_peer (CopyMetadata ctx serverCtx s).1 = ctx_peer ctx /\
  ctx_scopes (CopyMetadata ctx serverCtx s).1 = ctx_scopes ctx.
Proof.
  split; [apply CopyMetadata_trace|].
  split; [apply CopyMetadata_nextScope|].
  split; [intros r m; apply CopyMetadata_keeps_maps|].
  split; [apply CopyMetadata_fields|].
  split; [apply CopyMetadata_fields | apply CopyMetadata_scopes].
Qed.

Lemma CopyMetadata_changes_only_outgoing_witness :
  heap (CopyMetadata Sample.background (Sample.inbound (Some 0%nat) (Some Sample.tcp4))
          (Sample.one_map {[ "k" := ["v"] ]})).2 !! 0%nat
  = Some {[ "k" := ["v"] ]}.
Proof.
  apply (CopyMetadata_changes_only_outgoing Sample.background
           (Sample.inbound (Some 0%nat) (Some Sample.tcp4))
           (Sample.one_map {[ "k" := ["v"] ]})).
  reflexivity.
Defined.

(** X5.  When there is anything to forward (inbound metadata, or a
    caller address), the outgoing metadata [CopyMetadata] attaches is a
    new map with no appended pairs, and neither it nor the resulting
    state depends on the outgoing context given: metadata that context
    already carried is replaced, never merged. *)
Theorem CopyMetadata_replaces_outgoing (ctx1 ctx2 serverCtx : Context) (s : State) :
  metadata.FromIncomingContext serverCtx <> None \/ RemoteIp serverCtx <> "" ->
  ctx_outgoing (CopyMetadata ctx1 serverCtx s).1
  = ctx_outgoing (CopyMetadata ctx2 serverCtx s).1 /\
  (CopyMetadata ctx1 serverCtx s).2 = (CopyMetadata ctx2 serverCtx s).2 /\
  exists md',
    ctx_outgoing (CopyMetadata ctx1 serverCtx s).1
    = Some {| raw_md := md'; raw_added := [] |} /\
    heap s !! md' = None.
Proof.
  intros Hsome.
  destruct (metadata.FromIncomingContext serverCtx) as [md|] eqn:Hmd.
  - rewrite !(CopyMetadata_incoming _ _ _ _ Hmd). simpl.
    split; [done|]. split; [done|].
    eexists. split; [reflexivity | apply fresh_unused].
  - destruct Hsome as [Hsome | Hip]; [done|].
    apply len_nonzero_iff in Hip.
    rewrite !(CopyMetadata_no_incoming _ _ _ Hmd), Hip. simpl.
    split; [done|]. split; [done|].
    eexists. split; [reflexivity | apply fresh_unused].
Qed.

Lemma CopyMetadata_replaces_outgoing_witness :
  ctx_outgoing (CopyMetadata Calls.own_metadata
                  (Sample.inbound (Some 0%nat) (Some Sample.tcp4)) Calls.start).1
  = ctx_outgoing (CopyMetadata Sample.background
                    (Sample.inbound (Some 0%nat) (Some Sample.tcp4)) Calls.start).1.
Proof.
  apply (CopyMetadata_replaces_outgoing Calls.own_metadata Sample.background
           (Sample.inbound (Some 0%nat) (Some Sample.tcp4)) Calls.start).
  left. discriminate.
Defined.

(** X6.  Two hops.  When the metadata one [CopyMetadata] attached comes
    in as the incoming metadata of a second one, the second result
    holds the first inbound metadata with both caller addresses added
    under [x-forwarded-for], the nearer caller last. *)
Theorem CopyMetadata_two_hops
    (ctx1 ctx2 serverCtx1 serverCtx2 : Context) (s : State) (md : MD) (m : MDmap) :
  metadata.FromIncomingContext serverCtx1 = Some md ->
  heap s !! md = Some m ->
  RemoteIp serverCtx1 <> "" ->
  metadata.FromIncomingContext serverCtx2
  = raw_md <$> ctx_outgoing (CopyMetadata ctx1 serverCtx1 s).1 ->
  RemoteIp serverCtx2 <> "" ->
  exists md2,
    ctx_outgoing (CopyMetadata ctx2 serverCtx2 (CopyMetadata ctx1 serverCtx1 s).2).1
    = Some {| raw_md := md2; raw_added := [] |} /\
    heap (CopyMetadata ctx2 serverCtx2 (CopyMetadata ctx1 serverCtx1 s).2).2 !! md2
    = Some (<["x-forwarded-for" :=
               (default [] (m !! "x-forwarded-for")
                ++ [RemoteIp serverCtx1; RemoteIp serverCtx2])%list]> m).
Proof.
  intros Hmd Hm Hip1 Hnext Hip2.
  apply len_nonzero_iff in Hip1. apply len_nonzero_iff in Hip2.
  rewrite (CopyMetadata_incoming _ _ _ _ Hmd) in Hnext |- *.
  rewrite Hip1 in Hnext |- *. simpl in Hnext.
  rewrite (CopyMetadata_incoming _ _ _ _ Hnext). rewrite Hip2. simpl.
  eexists. split; [reflexivity|].
  rewrite lookup_insert_eq. f_equal.
  unfold deref. rewrite lookup_insert_eq, Hm. simpl.
  unfold metadata.append_at.
  rewrite lookup_insert_eq, insert_insert_eq. simpl.
  by rewrite <- app_assoc.
Qed.

Lemma CopyMetadata_two_hops_witness :
  exists md2,
    heap (CopyMetadata Sample.background
            (Sample.inbound (Some 1%nat) (Some (net.Other "tcp" "198.51.100.7:443")))
            (CopyMetadata Sample.background
               (Sample.inbound (Some 0%nat) (Some Sample.tcp4))
               (Sample.one_map {[ "k" := ["v"] ]})).2).2 !! md2
    = Some {[ "k" := ["v"]; "x-forwarded-for" := ["203.0.113.5"; "198.51.100.7"] ]}.
Proof.
  destruct (CopyMetadata_two_hops Sample.background Sample.background
              (Sample.inbound (Some 0%nat) (Some Sample.tcp4))
              (Sample.inbound (Some 1%nat) (Some (net.Other "tcp" "198.51.100.7:443")))
              (Sample.one_map {[ "k" := ["v"] ]}) 0%nat {[ "k" := ["v"] ]})
    as (md2 & _ & Hmap).
  - reflexivity.
  - reflexivity.
  - discriminate.
  - vm_compute. exact eq_refl.
  - discriminate.
  - exists md2. etransitivity; [exact Hmap|]. vm_compute. exact eq_refl.
Defined.

(** ** [RegisterService] and [TransparentHandler] *)

(** The loop of [RegisterService]: one description per name, appended
    in the order of the names. *)
Lemma register_loop (hd : grpc.StreamHandler) (methodNames : list string) :
  forall fakeDesc : grpc.ServiceDesc,
    fold_left
      (fun fakeDesc m =>
         {| grpc.ServiceName := grpc.ServiceName fakeDesc;
            grpc.Methods := grpc.Methods fakeDesc;
            grpc.Streams :=
              (grpc.Streams fakeDesc
               ++ [{| grpc.StreamName := m; grpc.Handler := hd;
                      grpc.ServerStreams := true; grpc.ClientStreams := true |}])%list |})
      methodNames fakeDesc
    = {| grpc.ServiceName := grpc.ServiceName fakeDesc;
         grpc.Methods := grpc.Methods fakeDesc;
         grpc.Streams :=
           (grpc.Streams fakeDesc
            ++ map (fun m => {| grpc.StreamName := m; grpc.Handler := hd;
                                grpc.ServerStreams := true;
                                grpc.ClientStreams := true |}) methodNames)%list |}.
Proof.
  induction methodNames as [|m names IH]; intros fakeDesc; simpl.
  - rewrite app_nil_r. by destruct fakeDesc.
  - rewrite IH. simpl. by rewrite <- app_assoc.
Qed.

Section RegistrationProperties.

Variable grpc_NewClientStream : Context -> ClientConn -> string -> ClientStream + error.
Variable biDirCopy : ServerStream -> ClientStream -> option error.

Local Abbreviation register := (RegisterService grpc_NewClientStream biDirCopy).


(** X8.  Every stream [RegisterService] registers is declared streaming
    in both directions, and its handler is the one [TransparentHandler]
    returns for the same Director. *)
Theorem RegisterService_streams_are_bidirectional
    (server : grpc.Server) (director : StreamDirector)
    (serviceName : string) (methodNames : list string)
    (sd : grpc.ServiceDesc) (ss : handler_) :
  last (register server director serviceName methodNames) = Some (sd, ss) ->
  Forall (fun d => grpc.ServerStreams d = true /\
                   grpc.ClientStreams d = true /\
                   grpc.Handler d
                   = TransparentHandler grpc_NewClientStream biDirCopy director)
         (grpc.Streams sd).
Proof.
  unfold RegisterService, grpc.Server_RegisterService. cbv zeta.
  rewrite register_loop, last_snoc. intros [= <- _]. simpl.
  apply Forall_forall. intros d Hd.
  apply list_elem_of_In, in_map_iff in Hd as (m & <- & _). by simpl.
Qed.

End RegistrationProperties.

Lemma RegisterService_streams_are_bidirectional_witness :
  exists sd ss,
    last (RegisterService Calls.accept Calls.relay_nil [] Calls.shielding
            "vgough.testproto.TestService" Registered.methods) = Some (sd, ss) /\
    Forall (fun d => grpc.ServerStreams d = true /\
                     grpc.ClientStreams d = true /\
                     grpc.Handler d
                     = TransparentHandler Calls.accept Calls.relay_nil Calls.shielding)
           (grpc.Streams sd) /\
    map grpc.StreamName (grpc.Streams sd) = Registered.methods.
Proof.
  eexists _, _. split; [reflexivity|]. split; [|reflexivity].
  apply (RegisterService_streams_are_bidirectional Calls.accept Calls.relay_nil []
           Calls.shielding "vgough.testproto.TestService" Registered.methods)
    with (ss := {| director := Calls.shielding |}).
  reflexivity.
Defined.

(** ** The example Director *)

Section ExampleDirector.

Variable grpc_DialContext : Context -> string -> option nat * option error.

Local Abbreviation ClientConn := (proxy_test.ClientConn grpc_DialContext).

Local Abbreviation rejected :=
  (proxy_test.Returns
     {| proxy_test.res_ctx := None; proxy_test.res_cancel := None;
        proxy_test.res_conn := None;
        proxy_test.res_err := Some (StatusError 12 "Unknown method") |}).

(** The two conditions of [ClientConn] on the metadata, by cases on
    what is under [:authority]. *)
Lemma authority_is_cases (m : MDmap) (host : string) :
  (m !! ":authority" = None /\ proxy_test.authority_is m host = Some false) \/
  (m !! ":authority" = Some [] /\ proxy_test.authority_is m host = None) \/
  (exists v0 rest, m !! ":authority" = Some (v0 :: rest) /\
                   proxy_test.authority_is m host = Some (String.eqb v0 host)).
Proof.
  unfold proxy_test.authority_is.
  destruct (m !! ":authority") as [[|v0 rest]|]; eauto 6.
Qed.

(** X9.  [ClientConn] dials exactly when the method is not internal and
    the first value under [:authority] of the incoming metadata is one
    of the two hosts; in particular a method of an internal service is
    never forwarded, whatever the metadata. *)
Theorem ClientConn_dials_iff (h : Heap) (ctx : Context) (method : string) :
  (ClientConn h ctx method).1 <> [] <->
  strings.HasPrefix method "/com.example.internal." = false /\
  exists md host rest,
    metadata.FromIncomingContext ctx = Some md /\
    deref h md !! ":authority" = Some (host :: rest) /\
    (host = "staging.api.example.com" \/ host = "api.example.com").
Proof.
  unfold proxy_test.ClientConn.
  destruct (strings.HasPrefix method _); [split; [done | by intros [? _]]|].
  destruct (metadata.FromIncomingContext ctx) as [md|];
    [|split; [done | by intros (_ & ? & ? & ? & ? & _)]].
  destruct (authority_is_cases (deref h md) "staging.api.example.com")
    as [[Hk Hs] | [[Hk Hs] | (v0 & rest & Hk & Hs)]];
    destruct (authority_is_cases (deref h md) "api.example.com")
      as [[Hk' Hp] | [[Hk' Hp] | (v0' & rest' & Hk' & Hp)]];
    rewrite ?Hs, ?Hp; try congruence.
  - split; [done|]. intros (_ & md' & host & rest & [= <-] & Hk2 & _). congruence.
  - split; [done|]. intros (_ & md' & host & rest & [= <-] & Hk2 & _). congruence.
  - assert (v0' = v0 /\ rest' = rest) as [-> ->] by (split; congruence).
    destruct (String.eqb v0 "staging.api.example.com") eqn:Es.
    { apply String.eqb_eq in Es as ->. simpl. destruct (grpc_DialContext _ _).
      split; [|done]. intros _. split; [done|]. eauto 8. }
    destruct (String.eqb v0 "api.example.com") eqn:Ep.
    { apply String.eqb_eq in Ep as ->. simpl. destruct (grpc_DialContext _ _).
      split; [|done]. intros _. split; [done|]. eauto 8. }
    simpl. split; [done|].
    intros (_ & md' & host & rest' & [= <-] & Hk2 & Hhost).
    apply String.eqb_neq in Es, Ep. rewrite Hk in Hk2. injection Hk2 as <- _.
    by destruct Hhost.
Qed.

(** X10.  On every input [ClientConn] ends in one of three ways: it
    dials nothing, and then returns the Unimplemented status (with no
    context, cancellation function or connection) or panics; or it dials
    one of the two backends, once, with the context it was given, and
    returns what the dial returned with the background context and no
    cancellation function. *)
Theorem ClientConn_dials_known_backends (h : Heap) (ctx : Context) (method : string) :
  ((ClientConn h ctx method).1 = [] /\
   ((ClientConn h ctx method).2 = rejected \/
    (ClientConn h ctx method).2 = proxy_test.Panics)) \/
  exists backend,
    (backend = "api-service.staging.svc.local" \/
     backend = "api-service.prod.svc.local") /\
    ClientConn h ctx method
    = ([(ctx, backend)],
       proxy_test.Returns
         {| proxy_test.res_ctx := Some proxy_test.Background;
            proxy_test.res_cancel := None;
            proxy_test.res_conn := (grpc_DialContext ctx backend).1;
            proxy_test.res_err := (grpc_DialContext ctx backend).2 |}).
Proof.
  unfold proxy_test.ClientConn.
  destruct (strings.HasPrefix method _); [left; auto|].
  destruct (metadata.FromIncomingContext ctx) as [md|]; [|left; auto].
  destruct (proxy_test.authority_is _ "staging.api.example.com") as [[]|];
    [| |left; auto].
  - right. exists "api-service.staging.svc.local". split; [by left|].
    simpl. by destruct (grpc_DialContext _ _).
  - destruct (proxy_test.authority_is _ "api.example.com") as [[]|];
      [| left; auto | left; auto].
    right. exists "api-service.prod.svc.local". split; [by right|].
    simpl. by destruct (grpc_DialContext _ _).
Qed.

(** X11.  For a method that is not internal, the first value under
    [:authority] decides: for the staging host and for the production
    host, [ClientConn] dials the matching backend with the inbound
    context and returns what the dial returned, connection and error,
    with the background context and no cancellation function.  Later
    values under the key are not looked at. *)
Theorem ClientConn_routes_by_first_authority
    (h : Heap) (ctx : Context) (method : string) (md : MD)
    (host backend : string) (rest : list string) :
  strings.HasPrefix method "/com.example.internal." = false ->
  metadata.FromIncomingContext ctx = Some md ->
  deref h md !! ":authority" = Some (host :: rest) ->
  (host = "staging.api.example.com" /\ backend = "api-service.staging.svc.local") \/
  (host = "api.example.com" /\ backend = "api-service.prod.svc.local") ->
  ClientConn h ctx method
  = ([(ctx, backend)],
     proxy_test.Returns
       {| proxy_test.res_ctx := Some proxy_test.Background;
          proxy_test.res_cancel := None;
          proxy_test.res_conn := (grpc_DialContext ctx backend).1;
          proxy_test.res_err := (grpc_DialContext ctx backend).2 |}).
Proof.
  intros Hm Hmd Hauth Hhost.
  unfold proxy_test.ClientConn, proxy_test.authority_is.
  rewrite Hm, Hmd, Hauth.
  destruct Hhost as [[-> ->] | [-> ->]]; simpl;
    by destruct (grpc_DialContext _ _).
Qed.

(** X12.  [ClientConn] panics exactly when the method is not internal
    and the incoming metadata has the [:authority] key with no value:
    it reads the first value without looking at the length. *)
Theorem ClientConn_panics_iff (h : Heap) (ctx : Context) (method : string) :
  (ClientConn h ctx method).2 = proxy_test.Panics <->
  strings.HasPrefix method "/com.example.internal." = false /\
  exists md,
    metadata.FromIncomingContext ctx = Some md /\
    deref h md !! ":authority" = Some [].
Proof.
  unfold proxy_test.ClientConn.
  destruct (strings.HasPrefix method _); [split; [done | by intros [? _]]|].
  destruct (metadata.FromIncomingContext ctx) as [md|];
    [|split; [done | by intros (_ & ? & ? & _)]].
  destruct (authority_is_cases (deref h md) "staging.api.example.com")
    as [[Hk Hs] | [[Hk Hs] | (v0 & rest & Hk & Hs)]];
    destruct (authority_is_cases (deref h md) "api.example.com")
      as [[Hk' Hp] | [[Hk' Hp] | (v0' & rest' & Hk' & Hp)]];
    rewrite ?Hs, ?Hp; try congruence.
  - simpl. split; [done|]. intros (_ & md' & [= <-] & Hk2). congruence.
  - split; [|done]. intros _. split; [done|]. eauto.
  - assert (forall o : list (Context * string) * proxy_test.Outcome proxy_test.Results,
               (exists r l, o = (l, proxy_test.Returns r)) ->
               o.2 = proxy_test.Panics <->
               false = false /\
               exists md0, Some md = Some md0 /\ deref h md0 !! ":authority" = Some [])
      as Hret.
    { intros o (r & l & ->). simpl. split; [done|].
      intros (_ & md' & [= <-] & Hk2). congruence. }
    apply Hret.
    destruct (String.eqb v0 "staging.api.example.com"); simpl;
      [destruct (grpc_DialContext _ _); eauto|].
    destruct (String.eqb v0' "api.example.com"); simpl;
      [destruct (grpc_DialContext _ _); eauto | eauto].
Qed.

End ExampleDirector.

Lemma ClientConn_dials_iff_witness :
  (proxy_test.ClientConn Registered.dial_ok
     (heap (Registered.with_authority "staging.api.example.com"))
     (Sample.inbound (Some 0%nat) (Some Sample.tcp4))
     "/com.example.internal.Admin/Reset").1 = [] /\
  (proxy_test.ClientConn Registered.dial_ok
     (heap (Registered.with_authority "staging.api.example.com"))
     (Sample.inbound (Some 0%nat) (Some Sample.tcp4)) "/pkg.Service/Ping").1 <> [].
Proof.
  split.
  - destruct (proxy_test.ClientConn Registered.dial_ok
                (heap (Registered.with_authority "staging.api.example.com"))
                (Sample.inbound (Some 0%nat) (Some Sample.tcp4))
                "/com.example.internal.Admin/Reset").1 as [|d l] eqn:E; [done|].
    assert ((proxy_test.ClientConn Registered.dial_ok
               (heap (Registered.with_authority "staging.api.example.com"))
               (Sample.inbound (Some 0%nat) (Some Sample.tcp4))
               "/com.example.internal.Admin/Reset").1 <> []) as Hne
      by (rewrite E; discriminate).
    apply ClientConn_dials_iff in Hne as [Hint _]. discriminate Hint.
  - apply ClientConn_dials_iff. split; [reflexivity|].
    exists 0%nat, "staging.api.example.com", [].
    split; [reflexivity|]. split; [vm_compute; exact eq_refl | by left].
Defined.

Lemma ClientConn_routes_by_first_authority_witness :
  proxy_test.ClientConn Registered.dial_ok
    (heap (Sample.one_map {[ ":authority" := ["api.example.com"; "staging.api.example.com"] ]}))
    (Sample.inbound (Some 0%nat) (Some Sample.tcp4)) "/pkg.Service/Ping"
  = ([(Sample.inbound (Some 0%nat) (Some Sample.tcp4), "api-service.prod.svc.local")],
     proxy_test.Returns
       {| proxy_test.res_ctx := Some proxy_test.Background;
          proxy_test.res_cancel := None;
          proxy_test.res_conn := Some 9%nat;
          proxy_test.res_err := None |}).
Proof.
  apply (ClientConn_routes_by_first_authority Registered.dial_ok
           (heap (Sample.one_map
                    {[ ":authority" := ["api.example.com"; "staging.api.example.com"] ]}))
           (Sample.inbound (Some 0%nat) (Some Sample.tcp4)) "/pkg.Service/Ping" 0%nat
           "api.example.com" "api-service.prod.svc.local" ["staging.api.example.com"]).
  - reflexivity.
  - reflexivity.
  - vm_compute. exact eq_refl.
  - right. split; reflexivity.
Defined.

Lemma ClientConn_panics_iff_witness :
  (proxy_test.ClientConn Registered.dial_ok
     (heap (Sample.one_map {[ ":authority" := [] ]}))
     (Sample.inbound (Some 0%nat) (Some Sample.tcp4)) "/pkg.Service/Ping").2
  = proxy_test.Panics.
Proof.
  apply ClientConn_panics_iff. split; [reflexivity|].
  exists 0%nat. split; [reflexivity | vm_compute; exact eq_refl].
Defined.

(** ** More on the handler *)

(** What happens before the stream is opened. *)
Lemma call_context_run (r : Routing) (serverCtx : Context) (s : State) :
  (call_context r serverCtx s).1.2
  = default (DerivedCancel (nextScope s)) (r_cancel r) /\
  trace (call_context r serverCtx s).2 = trace s /\
  nextScope (call_context r serverCtx s).2
  = match r_cancel r with None => S (nextScope s) | Some _ => nextScope s end /\
  (forall r0 m, heap s !! r0 = Some m ->
                heap (call_context r serverCtx s).2 !! r0 = Some m) /\
  ctx_scopes (call_context r serverCtx s).1.1
  = match r_cancel r with
    | None => nextScope s :: ctx_scopes (r_ctx r)
    | Some _ => ctx_scopes (r_ctx r)
    end.
Proof.
  unfold call_context, call_scope, bind.
  destruct (r_cancel r) as [c|]; simpl.
  - destruct (metadata.FromOutgoingContext_ok (r_ctx r)); simpl; [done|].
    pose proof (CopyMetadata_trace (r_ctx r) serverCtx s) as Ht.
    pose proof (CopyMetadata_nextScope (r_ctx r) serverCtx s) as Hn.
    pose proof (CopyMetadata_scopes (r_ctx r) serverCtx s) as Hsc.
    pose proof (fun r0 m => CopyMetadata_keeps_maps (r_ctx r) serverCtx s r0 m) as Hh.
    destruct (CopyMetadata (r_ctx r) serverCtx s) as [ctx' s']. simpl in *.
    auto.
  - set (ctx1 := {| ctx_incoming := _ |}). set (s0 := {| heap := _ |}).
    destruct (metadata.FromOutgoingContext_ok ctx1); simpl; [done|].
    pose proof (CopyMetadata_trace ctx1 serverCtx s0) as Ht.
    pose proof (CopyMetadata_nextScope ctx1 serverCtx s0) as Hn.
    pose proof (CopyMetadata_scopes ctx1 serverCtx s0) as Hsc.
    pose proof (fun r0 m => CopyMetadata_keeps_maps ctx1 serverCtx s0 r0 m) as Hh.
    destruct (CopyMetadata ctx1 serverCtx s0) as [ctx' s']. simpl in *.
    auto.
Qed.

(** When the Director's context has no outgoing metadata and the
    inbound context has metadata [md], the context of the call carries
    one new map, as [CopyMetadata] fills it. *)
Lemma call_context_copies (r : Routing) (serverCtx : Context) (s : State) (md : MD) :
  metadata.FromOutgoingContext_ok (r_ctx r) = false ->
  metadata.FromIncomingContext serverCtx = Some md ->
  ctx_outgoing (call_context r serverCtx s).1.1
  = Some {| raw_md := fresh (dom (heap s)); raw_added := [] |} /\
  heap (call_context r serverCtx s).2
  = <[fresh (dom (heap s)) :=
        if strings.len (RemoteIp serverCtx) =? 0
        then deref (heap s) md
        else metadata.append_at "x-forwarded-for" [RemoteIp serverCtx]
               (deref (heap s) md)]> (heap s).
Proof.
  intros Hok Hmd. unfold call_context, call_scope, bind.
  destruct (r_cancel r) as [c|]; simpl.
  - rewrite Hok. simpl. by rewrite (CopyMetadata_incoming _ _ _ _ Hmd).
  - unfold metadata.FromOutgoingContext_ok in Hok |- *. simpl.
    destruct (ctx_outgoing (r_ctx r)); [discriminate|]. simpl.
    by rewrite (CopyMetadata_incoming _ _ _ _ Hmd).
Qed.

Section HandlerFurther.

Variable grpc_NewClientStream : Context -> ClientConn -> string -> ClientStream + error.
Variable biDirCopy : ServerStream -> ClientStream -> option error.
Variable h : handler_.
Variable serverStream : ServerStream.

Local Abbreviation routing :=
  (director h (ss_Context serverStream) (ss_Method serverStream)).
Local Abbreviation run := (handler grpc_NewClientStream biDirCopy h serverStream).

(** A routed run, with what comes before the stream given by
    [call_context]. *)
Lemma handler_unfold (s : State) :
  r_err routing = None ->
  run s =
    let pre := call_context routing (ss_Context serverStream) s in
    let ctx := pre.1.1 in
    let c := pre.1.2 in
    let dir := r_dir routing in
    let m := if negb (strings.len (Method dir) =? 0) then Method dir
             else ss_Method serverStream in
    match grpc_NewClientStream ctx (BackendConn dir) m with
    | inr err =>
        (Some err,
         with_events pre.2 [EvNewClientStream ctx (BackendConn dir) m; EvCancel c])
    | inl cs =>
        let err := normalise (biDirCopy serverStream cs) in
        (err,
         with_events pre.2
           ([EvNewClientStream ctx (BackendConn dir) m; EvBiDirCopy serverStream cs]
            ++ done_events dir err ++ [EvCancel c])%list)
    end.
Proof.
  intros Herr. unfold handler. rewrite Herr. cbv zeta.
  unfold call_context, call_scope.
  unfold defer, NewClientStream, call_biDirCopy, call_Done, call_Cancel, bind, ret,
    emit, normalise, done_events, with_events, context.WithCancel.
  destruct (r_cancel routing) as [c0|].
  - destruct (negb (metadata.FromOutgoingContext_ok (r_ctx routing))).
    + destruct (CopyMetadata (r_ctx routing) (ss_Context serverStream) s)
        as [ctx2 s1].
      cbn [fst snd].
      destruct (grpc_NewClientStream ctx2 _ _) as [cs|err]; simpl;
        [destruct (Done (r_dir routing)); simpl|]; rewrite <- ?app_assoc; reflexivity.
    + cbn [fst snd].
      destruct (grpc_NewClientStream _ _ _) as [cs|err]; simpl;
        [destruct (Done (r_dir routing)); simpl|]; rewrite <- ?app_assoc; reflexivity.
  - set (ctx1 := {| ctx_incoming := _ |}). set (s0 := {| heap := _ |}).
    destruct (negb (metadata.FromOutgoingContext_ok ctx1)).
    + destruct (CopyMetadata ctx1 (ss_Context serverStream) s0) as [ctx2 s1].
      cbn [fst snd].
      destruct (grpc_NewClientStream ctx2 _ _) as [cs|err]; simpl;
        [destruct (Done (r_dir routing)); simpl|]; rewrite <- ?app_assoc; reflexivity.
    + cbn [fst snd].
      destruct (grpc_NewClientStream _ _ _) as [cs|err]; simpl;
        [destruct (Done (r_dir routing)); simpl|]; rewrite <- ?app_assoc; reflexivity.
Qed.

(** The calls of a routed run, the stream it opens and the scope
    counter, read off [handler_unfold]. *)
Lemma routed_emitted (s : State) :
  r_err routing = None ->
  let pre := call_context routing (ss_Context serverStream) s in
  let dir := r_dir routing in
  let m := if negb (strings.len (Method dir) =? 0) then Method dir
           else ss_Method serverStream in
  emitted s (run s).2 =
    match grpc_NewClientStream pre.1.1 (BackendConn dir) m with
    | inr err => [EvNewClientStream pre.1.1 (BackendConn dir) m; EvCancel pre.1.2]
    | inl cs =>
        ([EvNewClientStream pre.1.1 (BackendConn dir) m; EvBiDirCopy serverStream cs]
         ++ done_events dir (normalise (biDirCopy serverStream cs))
         ++ [EvCancel pre.1.2])%list
    end /\
  heap (run s).2 = heap pre.2 /\
  nextScope (run s).2 = nextScope pre.2 /\
  (run s).1 =
    match grpc_NewClientStream pre.1.1 (BackendConn dir) m with
    | inr err => Some err
    | inl cs => normalise (biDirCopy serverStream cs)
    end.
Proof.
  intros Herr. cbv zeta. rewrite (handler_unfold s Herr). cbv zeta.
  destruct (call_context_run routing (ss_Context serverStream) s) as (_ & Ht & _).
  destruct (grpc_NewClientStream _ _ _) as [cs|err]; cbn [fst snd];
    rewrite emitted_with_events by exact Ht; done.
Qed.

Lemma omap_done_events (dir : Director) (err : option error) :
  cancel_calls (done_events dir err) = [] /\
  stream_opens (done_events dir err) = [] /\
  relays (done_events dir err) = [].
Proof. unfold done_events. by destruct (Done dir). Qed.

Lemma routed_cancel_calls (s : State) :
  r_err routing = None ->
  cancel_calls (emitted s (run s).2)
  = [default (DerivedCancel (nextScope s)) (r_cancel routing)].
Proof.
  intros Herr. destruct (routed_emitted s Herr) as (-> & _).
  destruct (call_context_run routing (ss_Context serverStream) s) as (-> & _).
  destruct (grpc_NewClientStream _ _ _) as [cs|err]; [|done].
  unfold done_events. by destruct (Done (r_dir routing)).
Qed.

Lemma routed_nextScope (s : State) :
  r_err routing = None ->
  nextScope (run s).2
  = match r_cancel routing with None => S (nextScope s) | Some _ => nextScope s end.
Proof.
  intros Herr. destruct (routed_emitted s Herr) as (_ & _ & -> & _).
  apply call_context_run.
Qed.

Lemma routed_stream_opens (s : State) :
  r_err routing = None ->
  stream_opens (emitted s (run s).2)
  = [((call_context routing (ss_Context serverStream) s).1.1,
      BackendConn (r_dir routing),
      if negb (strings.len (Method (r_dir routing)) =? 0) then Method (r_dir routing)
      else ss_Method serverStream)].
Proof.
  intros Herr. destruct (routed_emitted s Herr) as (-> & _).
  destruct (grpc_NewClientStream _ _ _) as [cs|err]; [|done].
  unfold done_events. by destruct (Done (r_dir routing)).
Qed.

(** X13.  Whatever the relay returns, other than [io.EOF], is what the
    handler returns, unchanged, and what it hands to the completion
    callback, once, when the Director gave one: [nil] for [nil], a
    status for a status. *)
Theorem handler_reports_relay_result (s : State) (cs : ClientStream) :
  EvBiDirCopy serverStream cs ∈ emitted s (run s).2 ->
  biDirCopy serverStream cs <> Some io_EOF ->
  (run s).1 = biDirCopy serverStream cs /\
  done_calls (emitted s (run s).2) =
    match Done (r_dir routing) with
    | Some done => [(done, biDirCopy serverStream cs)]
    | None => []
    end.
Proof.
  intros Hin Hne.
  destruct (r_err routing) as [e0|] eqn:Herr.
  { rewrite (handler_rejected _ _ _ _ _ _ Herr) in Hin. simpl in Hin.
    rewrite emitted_same in Hin by done. pick_event Hin. }
  destruct (routed_emitted s Herr) as (Hev & _ & _ & Hres).
  rewrite Hev in Hin |- *. rewrite Hres.
  destruct (grpc_NewClientStream _ _ _) as [cs'|e]; [|pick_event Hin].
  assert (cs' = cs) as ->.
  { unfold done_events in Hin.
    destruct (Done (r_dir routing)); pick_event Hin; by injection Hin. }
  unfold normalise, done_events. destruct (decide _) as [Heq|_]; [done|].
  by destruct (Done (r_dir routing)).
Qed.

(** X14.  The order of the calls of a routed run.  The handler first
    opens the stream; when that fails it only calls the cancellation
    function; else it relays, then calls the completion callback (when
    there is one) with the error it is about to return, and calls the
    cancellation function last. *)
Theorem handler_call_order (s : State) :
  r_err routing = None ->
  exists (ctx : Context) (m : string),
    let conn := BackendConn (r_dir routing) in
    let c := match r_cancel routing with
             | Some clientCancel => clientCancel
             | None => DerivedCancel (nextScope s)
             end in
    emitted s (run s).2 =
      match grpc_NewClientStream ctx conn m with
      | inr _ => [EvNewClientStream ctx conn m; EvCancel c]
      | inl cs =>
          ([EvNewClientStream ctx conn m; EvBiDirCopy serverStream cs]
           ++ match Done (r_dir routing) with
              | Some done => [EvDone done (run s).1]
              | None => []
              end
           ++ [EvCancel c])%list
      end.
Proof.
  intros Herr. destruct (routed_emitted s Herr) as (Hev & _ & _ & Hres).
  destruct (call_context_run routing (ss_Context serverStream) s) as (Hc & _).
  exists (call_context routing (ss_Context serverStream) s).1.1,
    (if negb (strings.len (Method (r_dir routing)) =? 0) then Method (r_dir routing)
     else ss_Method serverStream).
  cbv zeta. rewrite Hev, Hres, Hc.
  assert (default (DerivedCancel (nextScope s)) (r_cancel routing)
          = match r_cancel routing with
            | Some clientCancel => clientCancel
            | None => DerivedCancel (nextScope s)
            end) as -> by (by destruct (r_cancel routing)).
  destruct (grpc_NewClientStream _ _ _) as [cs|e]; [|reflexivity].
  unfold done_events. by destruct (Done (r_dir routing)).
Qed.

(** X15.  The scope of the stream.  When the Director supplied no
    cancellation function, the stream is opened in a new scope under
    the Director's context, and that scope is the one cancelled at the
    end; when it supplied one, the stream is opened in the scopes of the
    Director's context as they are, and the supplied function is the one
    called. *)
Theorem handler_stream_scope (s : State) :
  r_err routing = None ->
  exists (ctx : Context) (conn : ClientConn) (m : string),
    stream_opens (emitted s (run s).2) = [(ctx, conn, m)] /\
    match r_cancel routing with
    | None =>
        ctx_scopes ctx = nextScope s :: ctx_scopes (r_ctx routing) /\
        cancel_calls (emitted s (run s).2) = [DerivedCancel (nextScope s)]
    | Some clientCancel =>
        ctx_scopes ctx = ctx_scopes (r_ctx routing) /\
        cancel_calls (emitted s (run s).2) = [clientCancel]
    end.
Proof.
  intros Herr. eexists _, _, _. split; [apply (routed_stream_opens s Herr)|].
  rewrite (routed_cancel_calls s Herr).
  destruct (call_context_run routing (ss_Context serverStream) s)
    as (_ & _ & _ & _ & Hsc).
  rewrite Hsc. by destruct (r_cancel routing).
Qed.

(** X16.  Default propagation, end to end.  When the Director's context
    carries no outgoing metadata, the inbound context carries the live
    map [md] and a caller address is derivable, the stream is opened
    with a new map as outgoing metadata: the inbound metadata with the
    caller's address added at the end of [x-forwarded-for].  The
    inbound map itself is as before. *)
Theorem handler_forwards_inbound_metadata (s : State) (md : MD) (m : MDmap) :
  r_err routing = None ->
  metadata.FromOutgoingContext_ok (r_ctx routing) = false ->
  metadata.FromIncomingContext (ss_Context serverStream) = Some md ->
  heap s !! md = Some m ->
  RemoteIp (ss_Context serverStream) <> "" ->
  exists (ctx : Context) (conn : ClientConn) (meth : string) (md' : MD),
    stream_opens (emitted s (run s).2) = [(ctx, conn, meth)] /\
    ctx_outgoing ctx = Some {| raw_md := md'; raw_added := [] |} /\
    heap s !! md' = None /\
    heap (run s).2 !! md' =
      Some (<["x-forwarded-for" :=
               (default [] (m !! "x-forwarded-for")
                ++ [RemoteIp (ss_Context serverStream)])%list]> m) /\
    heap (run s).2 !! md = Some m.
Proof.
  intros Herr Hok Hmd Hm Hip.
  destruct (call_context_copies routing (ss_Context serverStream) s md Hok Hmd)
    as (Hout & Hheap).
  destruct (routed_emitted s Herr) as (_ & Hh & _).
  apply len_nonzero_iff in Hip. rewrite Hip in Hheap.
  eexists _, _, _, _. split; [apply (routed_stream_opens s Herr)|].
  split; [exact Hout|]. split; [apply fresh_unused|].
  rewrite Hh, Hheap. split.
  - rewrite lookup_insert_eq. unfold deref. by rewrite Hm.
  - rewrite lookup_insert_ne; [done | by apply (fresh_other _ _ m)].
Qed.

(** X17.  The handler never changes a metadata map that exists when it
    starts, whether the inbound one or one of the Director's: on every
    run, every such map has its contents at the end. *)
Theorem handler_keeps_maps (s : State) (r : MD) (m : MDmap) :
  heap s !! r = Some m -> heap (run s).2 !! r = Some m.
Proof.
  intros Hr. destruct (r_err routing) as [e0|] eqn:Herr.
  - by rewrite (handler_rejected _ _ _ _ _ _ Herr).
  - destruct (routed_emitted s Herr) as (_ & -> & _).
    by apply call_context_run.
Qed.

End HandlerFurther.

(** X18.  Calls do not share cancellation scopes.  When the handler
    runs two calls one after the other and the Director supplies no
    cancellation function for either, each call cancels its own new
    scope, and the two scopes differ. *)
Theorem handler_calls_have_own_scopes
    (grpc_NewClientStream : Context -> ClientConn -> string -> ClientStream + error)
    (biDirCopy : ServerStream -> ClientStream -> option error)
    (h : handler_) (first next : ServerStream) (s : State) :
  r_err (director h (ss_Context first) (ss_Method first)) = None ->
  r_cancel (director h (ss_Context first) (ss_Method first)) = None ->
  r_err (director h (ss_Context next) (ss_Method next)) = None ->
  r_cancel (director h (ss_Context next) (ss_Method next)) = None ->
  cancel_calls
    (emitted s (handler grpc_NewClientStream biDirCopy h first s).2)
  = [DerivedCancel (nextScope s)] /\
  cancel_calls
    (emitted (handler grpc_NewClientStream biDirCopy h first s).2
       (handler grpc_NewClientStream biDirCopy h next
          (handler grpc_NewClientStream biDirCopy h first s).2).2)
  = [DerivedCancel (S (nextScope s))].
Proof.
  intros He1 Hc1 He2 Hc2.
  rewrite !routed_cancel_calls by assumption.
  rewrite (routed_nextScope _ _ _ _ s He1).
  by rewrite Hc1, Hc2.
Qed.

Lemma handler_calls_have_own_scopes_witness :
  cancel_calls
    (emitted
       (handler Calls.accept Calls.relay_nil {| director := Calls.shielding |}
          Calls.ping Calls.start).2
       (handler Calls.accept Calls.relay_nil {| director := Calls.shielding |}
          Calls.ping
          (handler Calls.accept Calls.relay_nil {| director := Calls.shielding |}
             Calls.ping Calls.start).2).2)
  = [DerivedCancel 1].
Proof.
  apply (handler_calls_have_own_scopes Calls.accept Calls.relay_nil
           {| director := Calls.shielding |} Calls.ping Calls.ping Calls.start);
    reflexivity.
Defined.

Lemma handler_reports_relay_result_witness :
  (handler Calls.accept Calls.relay_status {| director := Calls.shielding |}
     Calls.ping Calls.start).1 = Some (StatusError 14 "backend unavailable") /\
  done_calls (emitted Calls.start
     (handler Calls.accept Calls.relay_status {| director := Calls.shielding |}
        Calls.ping Calls.start).2)
  = [(7%nat, Some (StatusError 14 "backend unavailable"))].
Proof.
  apply (handler_reports_relay_result Calls.accept Calls.relay_status
           {| director := Calls.shielding |} Calls.ping Calls.start 5%nat).
  - vm_compute. repeat constructor.
  - discriminate.
Defined.

Lemma handler_call_order_witness :
  exists (ctx : Context) (m : string),
    emitted Calls.start
      (handler Calls.accept Calls.relay_eof {| director := Calls.shielding |}
         Calls.ping Calls.start).2
    = [EvNewClientStream ctx 1%nat m; EvBiDirCopy Calls.ping 5%nat;
       EvDone 7%nat None; EvCancel (DerivedCancel 0)].
Proof.
  destruct (handler_call_order Calls.accept Calls.relay_eof
              {| director := Calls.shielding |} Calls.ping Calls.start eq_refl)
    as (ctx & m & Hev).
  exists ctx, m. exact Hev.
Defined.

Lemma handler_stream_scope_witness :
  exists (ctx : Context) (conn : ClientConn) (m : string),
    stream_opens (emitted Calls.start
       (handler Calls.refuse Calls.relay_nil {| director := Calls.shielding |}
          Calls.ping Calls.start).2) = [(ctx, conn, m)] /\
    ctx_scopes ctx = [0%nat] /\
    cancel_calls (emitted Calls.start
       (handler Calls.refuse Calls.relay_nil {| director := Calls.shielding |}
          Calls.ping Calls.start).2) = [DerivedCancel 0].
Proof.
  apply (handler_stream_scope Calls.refuse Calls.relay_nil
           {| director := Calls.shielding |} Calls.ping Calls.start).
  reflexivity.
Defined.

Lemma handler_forwards_inbound_metadata_witness :
  exists (ctx : Context) (md' : MD),
    stream_opens (emitted Calls.start
       (handler Calls.accept Calls.relay_nil {| director := Calls.shielding |}
          Calls.ping Calls.start).2) = [(ctx, 1%nat, "/pkg.Service/Ping")] /\
    ctx_outgoing ctx = Some {| raw_md := md'; raw_added := [] |} /\
    heap (handler Calls.accept Calls.relay_nil {| director := Calls.shielding |}
            Calls.ping Calls.start).2 !! md'
    = Some {[ "k" := ["v"]; "x-forwarded-for" := ["203.0.113.5"] ]}.
Proof.
  destruct (handler_forwards_inbound_metadata Calls.accept Calls.relay_nil
              {| director := Calls.shielding |} Calls.ping Calls.start
              0%nat {[ "k" := ["v"] ]})
    as (ctx & conn & meth & md' & Hopen & Hout & _ & Hnew & _).
  - reflexivity.
  - reflexivity.
  - reflexivity.
  - reflexivity.
  - discriminate.
  - exists ctx, md'. split; [|split; [exact Hout|]].
    + etransitivity; [exact Hopen|].
      assert (stream_opens (emitted Calls.start
                (handler Calls.accept Calls.relay_nil {| director := Calls.shielding |}
                   Calls.ping Calls.start).2)
              = [(Calls.ping_outgoing, 1%nat, "/pkg.Service/Ping")]) as Hrun
        by (vm_compute; exact eq_refl).
      rewrite Hrun in Hopen. by injection Hopen as <- <- <-.
    + etransitivity; [exact Hnew|]. vm_compute. exact eq_refl.
Defined.

Lemma handler_keeps_maps_witness :
  heap (handler Calls.accept Calls.relay_nil {| director := Calls.shielding |}
          Calls.ping Calls.start).2 !! 0%nat
  = Some {[ "k" := ["v"] ]}.
Proof.
  apply (handler_keeps_maps Calls.accept Calls.relay_nil
           {| director := Calls.shielding |} Calls.ping Calls.start).
  reflexivity.
Defined.
